(** * install/compileLib.ts: resolution of the native build configuration

    A shallow embedding of [src/install/compileLib.ts] and the properties
    of its specification.  The script is effectful JavaScript: it reads and
    writes [process.env], looks at and changes the file system, prints to
    the console, logs through npmlog and starts one child process.  All of
    this is threaded through an explicit [World]; a thrown exception is the
    [Throw] result of the monad [M]. *)

From Stdlib Require Import ZArith Ascii String.
From stdpp Require Import base option list strings pretty gmap.

Open Scope string_scope.
Open Scope list_scope.

(** ** JavaScript values *)

(** The values that [mri] stores under an option name, and the values of
    the [code] of an error: absent, [true] or [false], a number, or a
    string.  [JNum n] is the number [n] for a safe integer (see [js_safe]).
    Every other value (null, a fraction, a number beyond the safe
    integers, the array of an option that is given several times) is a
    [JOther]: this code only tests such a value and converts it to a
    string, so it is given by its truthiness and by its string. *)
Inductive JsVal : Type :=
  | JUndefined
  | JBool (b : bool)
  | JNum (n : Z)
  | JStr (s : string)
  | JOther (truth : bool) (text : string).

(** The numbers that [JNum] stands for are the safe integers, whose string
    is their decimal writing; a larger number is a double that prints in
    another way (1e+23) and is a [JOther]. *)
Definition js_safe (v : JsVal) : Prop :=
  match v with
  | JNum n => (- 9007199254740991 <= n <= 9007199254740991)%Z
  | _ => True
  end.

(** What [if (v)], [!v] and [v || w] look at. *)
Definition truthy (v : JsVal) : bool :=
  match v with
  | JUndefined => false
  | JBool b => b
  | JNum n => negb (n =? 0)%Z
  | JStr s => negb (String.eqb s "")
  | JOther truth _ => truth
  end.

(** [a || b] *)
Definition js_or (a b : JsVal) : JsVal := if truthy a then a else b.

(** String conversion, as done by a template literal [`${v}`]. *)
Definition toString (v : JsVal) : string :=
  match v with
  | JUndefined => "undefined"
  | JBool true => "true"
  | JBool false => "false"
  | JNum n => pretty n
  | JStr s => s
  | JOther _ text => text
  end.

(** A [string | undefined] used as a condition. *)
Definition truthy_opt (o : option string) : bool :=
  match o with
  | Some s => negb (String.eqb s "")
  | None => false
  end.

(** A string used as a condition: only [''] is falsy. *)
Definition nonempty (s : string) : bool := negb (String.eqb s "").

(** [String.prototype.toUpperCase], on ASCII text (module names are ASCII
    identifiers: core, imgproc, ...). *)
Definition upper_ascii (c : ascii) : ascii :=
  let n := Ascii.nat_of_ascii c in
  if (97 <=? n)%nat && (n <=? 122)%nat then Ascii.ascii_of_nat (n - 32) else c.

Fixpoint toUpperCase (s : string) : string :=
  match s with
  | EmptyString => EmptyString
  | String c r => String (upper_ascii c) (toUpperCase r)
  end.

(** [Array.prototype.join] *)
Definition join (sep : string) (l : list string) : string := String.concat sep l.

(** The double quote character of the export lines. *)
Definition dquote : string := String (Ascii.ascii_of_nat 34) EmptyString.

(** ** Errors and results *)

(** An [Error] object: [new Error(message)] has the name ['Error'] and no
    code; the error that [child_process.exec] hands to its callback and the
    system errors of [fs] carry a code as well. *)
Record JsError : Type := mkError {
  name : string;
  message : string;
  code : JsVal
}.

Definition Error (msg : string) : JsError :=
  {| name := "Error"; message := msg; code := JUndefined |}.

Inductive Result (A : Type) : Type :=
  | Ok (a : A)
  | Throw (e : JsError).
Arguments Ok {A} a.
Arguments Throw {A} e.

(** ** The world of the script *)

Inductive Level : Type := level_info | level_error.

(** An argument of [console.log]. *)
Inductive Printed : Type :=
  | PStr (s : string)
  | PErr (e : JsError).

(** What the statements of compileLib.ts do to the outside, in order.
    [copyFile] and [unlink] record the call, whether or not it succeeds;
    [pipe_stdout] and [pipe_stderr] are the two [pipe] calls on the
    streams of the child. *)
Inductive Event : Type :=
  | console_log (args : list Printed)
  | npmlog (lvl : Level) (prefix msg : string) (args : list string)
  | copyFile (src dst : string)
  | unlink (path : string)
  | exec (cmd cwd : string)
  | pipe_stdout
  | pipe_stderr.

(** [process.env] and the file system (path to content; a directory is an
    entry as well, this code only asks whether a path exists). *)
Record Ambient : Type := mkAmbient {
  amb_env : gmap string string;
  amb_files : gmap string string
}.

Record World : Type := mkWorld {
  process_env : gmap string string;
  files : gmap string string;
  trace : list Event
}.

Definition M (A : Type) : Type := World -> Result A * World.

#[global] Instance M_ret : MRet M := fun A a w => (Ok a, w).

#[global] Instance M_bind : MBind M := fun A B f m w =>
  match m w with
  | (Ok a, w') => f a w'
  | (Throw e, w') => (Throw e, w')
  end.

Definition throw {A : Type} (e : JsError) : M A := fun w => (Throw e, w).

(** The world after some more events. *)
Definition add_events (evs : list Event) (w : World) : World :=
  {| process_env := process_env w; files := files w; trace := trace w ++ evs |}.

(** The events of npmlog. *)
Definition is_log (e : Event) : Prop :=
  match e with
  | npmlog _ _ _ _ => True
  | _ => False
  end.

Definition emit (e : Event) : M unit := fun w => (Ok tt, add_events [e] w).

(** A call into a collaborator that is not part of this file: it may read
    and change the environment and the file system and may throw. *)
Definition external {A : Type} (f : Ambient -> Result A * Ambient) : M A := fun w =>
  let '(r, a) := f {| amb_env := process_env w; amb_files := files w |} in
  (r, {| process_env := amb_env a; files := amb_files a; trace := trace w |}).

(** [process.env.X] *)
Definition getenv (k : string) : M (option string) := fun w => (Ok (process_env w !! k), w).

(** [process.env['X'] = v] *)
Definition setenv (k v : string) : M unit := fun w =>
  (Ok tt, {| process_env := <[k := v]> (process_env w); files := files w; trace := trace w |}).

Definition log_info (prefix msg : string) (args : list string) : M unit :=
  emit (npmlog level_info prefix msg args).

Definition log_error (prefix msg : string) (args : list string) : M unit :=
  emit (npmlog level_error prefix msg args).

(** [fs.existsSync] *)
Definition existsSync (p : string) : M bool := fun w =>
  (Ok (bool_decide (is_Some (files w !! p))), w).



(** [array.forEach(f)] *)
Fixpoint forEach {A : Type} (l : list A) (f : A -> M unit) : M unit :=
  match l with
  | [] => mret tt
  | x :: r => f x ;; forEach r f
  end.

(** ** Types of @u4/opencv-build *)

Record OpencvModule : Type := mkModule {
  opencvModule : string;
  libPath : option string
}.

Record OpenCVBuildEnvParams : Type := mkParams {
  autoBuildOpencvVersion : JsVal;
  autoBuildFlags : JsVal;
  autoBuildBuildCuda : bool;
  autoBuildWithoutContrib : bool;
  disableAutoBuild : bool
}.

Record OpenCVBuildEnv : Type := mkEnv {
  isAutoBuildDisabled : bool;
  opencvVersion : string;
  opencvLibDir : option string;
  opencvInclude : option string;
  opencv4Include : option string
}.

(** [builder.env], [builder.install()] (awaited: a rejection is a throw)
    and [builder.getLibs.getLibs()]. *)
Record OpenCVBuilder : Type := mkBuilder {
  env : OpenCVBuildEnv;
  install : Ambient -> Result unit * Ambient;
  getLibs : Ambient -> Result (list OpencvModule) * Ambient
}.

(** The record that [mri(args)] returns, with the options this script
    reads. *)
Record Argv : Type := mkArgv {
  arg_help : JsVal;
  arg_h : JsVal;
  arg_version : JsVal;
  arg_flags : JsVal;
  arg_cuda : JsVal;
  arg_nocontrib : JsVal;
  arg_nobuild : JsVal;
  arg_jobs : JsVal;
  arg_j : JsVal;
  arg_dryrun : JsVal;
  arg_dry_run : JsVal
}.

(** The object that [child_process.exec] returns, as far as this code
    looks at it: whether it has the two output streams (they are missing
    when the child could not be spawned). *)
Record ChildProcess : Type := mkChild {
  stdout : bool;
  stderr : bool
}.

(** The imports of compileLib.ts that are not code of this repository:
    the platform test and the builder of @u4/opencv-build, [mri], Node's
    [path] and [os], picocolors, and the directory of the script; and two
    things that the map of the files does not show: the error, if any, of
    a copy whose source exists (the destination is a directory, or cannot
    be written), and the streams of the child that [exec] returns for a
    command and a directory. *)
Class Runtime : Type := {
  isWin : bool;
  EOL : string;
  mri : list string -> Argv;
  path_resolve : string -> string;
  path_join : string -> string -> string;
  __dirname : string;
  pc_green : string -> string;
  pc_yellow : string -> string;
  new_OpenCVBuilder : OpenCVBuildEnvParams -> Ambient -> Result OpenCVBuilder * Ambient;
  copy_failure : gmap string string -> string -> string -> option JsError;
  child_of : string -> string -> ChildProcess
}.

(** ** The functions of compileLib.ts *)

Section CompileLib.
Context {node : Runtime}.

(** [fs.copyFileSync]: the destination is created or overwritten.  A
    missing source is an ENOENT error; a copy that cannot be done for
    another reason throws the error of the runtime and changes nothing. *)
Definition copyFileSync (src dst : string) : M unit := fun w =>
  let w1 := add_events [copyFile src dst] w in
  match files w !! src with
  | Some c =>
      match copy_failure (files w) src dst with
      | Some e => (Throw e, w1)
      | None => (Ok tt, {| process_env := process_env w; files := <[dst := c]> (files w);
                           trace := trace w1 |})
      end
  | None => (Throw {| name := "Error";
                      message := "ENOENT: no such file or directory, copyfile '" +:+ src
                                 +:+ "' -> '" +:+ dst +:+ "'";
                      code := JStr "ENOENT" |}, w1)
  end.

(** Modelled from the spec: [resolvePath] is imported from [../lib/commons],
    which is not among the sources.  Section 4.1: an absent or empty input
    gives the absent result (the falsy [''] for the declared return type
    [string]); any other input is normalised to an absolute path by the
    [path_resolve] of the runtime, which does not look at the file
    system. *)
Definition resolvePath (filePath : option string) : string :=
  match filePath with
  | Some p => if nonempty p then path_resolve p else ""
  | None => ""
  end.

Definition defaultDir : string := "/usr/local".
Definition defaultLibDir : string := defaultDir +:+ "/lib".
Definition defaultIncludeDir : string := defaultDir +:+ "/include".
Definition defaultIncludeDirOpenCV4 : string := defaultIncludeDir +:+ "/opencv4".

Definition getDefaultIncludeDirs : M (list string) :=
  log_info "install" "OPENCV_INCLUDE_DIR is not set, looking for default include dir" [];;
  if isWin then
    throw (Error "OPENCV_INCLUDE_DIR has to be defined on windows when auto build is disabled")
  else
    mret [defaultIncludeDir; defaultIncludeDirOpenCV4].

Definition getDefaultLibDir : M string :=
  log_info "install" "OPENCV_LIB_DIR is not set, looking for default lib dir" [];;
  if isWin then
    throw (Error "OPENCV_LIB_DIR has to be defined on windows when auto build is disabled")
  else
    mret defaultLibDir.

Definition getLibDir (env : OpenCVBuildEnv) : M string :=
  if isAutoBuildDisabled env then
    OPENCV_LIB_DIR ← getenv "OPENCV_LIB_DIR";
    let dir := resolvePath OPENCV_LIB_DIR in
    if nonempty dir then mret dir else getDefaultLibDir
  else
    let dir := resolvePath (opencvLibDir env) in
    if negb (nonempty dir) then
      throw (Error "failed to resolve opencvLibDir path")
    else
      mret dir.

Definition getOPENCV4NODEJS_LIBRARIES (libDir : string) (libsFoundInDir : list OpencvModule)
  : M (list string) :=
  let libs :=
    if isWin then
      map (fun lib => resolvePath (libPath lib)) libsFoundInDir
    else
      (["-L" +:+ libDir]
         ++ map (fun lib => "-lopencv_" +:+ opencvModule lib) libsFoundInDir)
        ++ ["-Wl,-rpath," +:+ libDir] in
  log_info "libs" (EOL +:+ "Setting the following libs:") [];;
  forEach libs (fun lib => log_info "libs" ("" +:+ lib) []);;
  mret libs.

Definition getOPENCV4NODEJS_DEFINES (libsFoundInDir : list OpencvModule) : M (list string) :=
  let defines :=
    map (fun lib => "OPENCV4NODEJS_FOUND_LIBRARY_" +:+ toUpperCase (opencvModule lib))
        libsFoundInDir in
  log_info "defines" (EOL +:+ "Setting the following defines:") [];;
  forEach defines (fun def => log_info "defines" (pc_yellow def) []);;
  mret defines.

(** The message of line 82 is a plain string, not a template: its [${EOL}]
    is logged as written. *)
Definition getOPENCV4NODEJS_INCLUDES (env : OpenCVBuildEnv) (libsFoundInDir : list OpencvModule)
  : M (list string) :=
  OPENCV_INCLUDE_DIR ← getenv "OPENCV_INCLUDE_DIR";
  let explicitIncludeDir := "" in
  let explicitIncludeDir :=
    if truthy_opt OPENCV_INCLUDE_DIR then resolvePath OPENCV_INCLUDE_DIR
    else explicitIncludeDir in
  includes ← (if isAutoBuildDisabled env then
                if nonempty explicitIncludeDir then mret [explicitIncludeDir]
                else getDefaultIncludeDirs
              else
                mret [resolvePath (opencvInclude env); resolvePath (opencv4Include env)]);
  log_info "install" "${EOL}setting the following includes:" [];;
  forEach includes (fun inc => log_info "includes" (pc_green inc) []);;
  mret includes.

Definition usage : string :=
  "Usage: install [--version=<version>] [--dry-run] [--flags=<flags>] [--cuda] [--nocontrib] [--nobuild] build".

(** compileLib, lines 89, 107 and 108: the value of [JOBS]. *)
Definition select_JOBS (parsed : Argv) : JsVal :=
  let JOBS := JStr "max" in
  let JOBS := if truthy (arg_jobs parsed) then arg_jobs parsed else JOBS in
  let JOBS := if truthy (arg_j parsed) then arg_j parsed else JOBS in
  JOBS.

(** The predicate of the filter of line 132, [lib => lib.libPath]. *)
Definition found (lib : OpencvModule) : bool := truthy_opt (libPath lib).

(** compileLib, lines 131 to 135: the modules of the builder that have a
    library file. *)
Definition enumerate (builder : OpenCVBuilder) (libDir : string) : M (list OpencvModule) :=
  libsInDir ← external (getLibs builder);
  let libsFoundInDir := filter (fun lib => found lib) libsInDir in
  if (length libsFoundInDir =? 0)%nat then
    throw (Error ("no OpenCV libraries found in lib dir: " +:+ libDir))
  else
    mret libsFoundInDir.

(** compileLib, lines 153 to 155: the directory above the script and the
    two descriptor files in it. *)
Definition cwd : string := path_join __dirname "..".
Definition hidenGyp : string := path_join cwd "_binding.gyp".
Definition realGyp : string := path_join cwd "binding.gyp".


(** compileLib, lines 145 to 186: the command line, the staging of the
    descriptor, and the dry run or the start of the child.  [exec] returns
    the child at once; its callback [exec_callback] runs later, outside
    compileLib. *)
Definition launch (JOBS dryRun : JsVal)
    (OPENCV4NODEJS_DEFINES OPENCV4NODEJS_INCLUDES OPENCV4NODEJS_LIBRARIES : string) : M unit :=
  let flags := "" in
  BINDINGS_DEBUG ← getenv "BINDINGS_DEBUG";
  let flags := if truthy_opt BINDINGS_DEBUG then flags +:+ " --debug" else flags in
  let flags := flags +:+ " --jobs " +:+ toString JOBS in
  hidden ← existsSync hidenGyp;
  (if hidden : bool then copyFileSync hidenGyp realGyp else mret tt);;
  let nodegypCmd := "node-gyp rebuild " +:+ flags in
  log_info "install" ("Spawning in " +:+ cwd +:+ " node gyp process: " +:+ nodegypCmd) [];;
  if truthy dryRun then
    emit (console_log [PStr ""]);;
    emit (console_log [PStr ("export OPENCV4NODEJS_DEFINES=" +:+ dquote
                               +:+ OPENCV4NODEJS_DEFINES +:+ dquote)]);;
    emit (console_log [PStr ("export OPENCV4NODEJS_INCLUDES=" +:+ dquote
                               +:+ OPENCV4NODEJS_INCLUDES +:+ dquote)]);;
    emit (console_log [PStr ("export OPENCV4NODEJS_LIBRARIES=" +:+ dquote
                               +:+ OPENCV4NODEJS_LIBRARIES +:+ dquote)]);;
    emit (console_log [PStr ""]);;
    emit (console_log [PStr nodegypCmd]);;
    emit (console_log [PStr ""])
  else
    let child := child_of nodegypCmd cwd in
    emit (exec nodegypCmd cwd);;
    (if stdout child then emit pipe_stdout else mret tt);;
    (if stderr child then emit pipe_stderr else mret tt).

(** compileLib, lines 117 to 143: the builder, the library directory, the
    modules found in it and the three derived variables, which are
    exported through [process.env]. *)
Definition configure (options : OpenCVBuildEnvParams) : M (string * string * string) :=
  builder ← external (new_OpenCVBuilder options);
  log_info "install" ("Using openCV " +:+ pc_green "%s") [opencvVersion (env builder)];;
  libDir ← getLibDir (env builder);
  log_info "install" ("Using lib dir: " +:+ libDir) [];;
  present ← existsSync libDir;
  (if negb present then external (install builder) else mret tt);;
  present ← existsSync libDir;
  (if negb present then throw (Error ("library dir does not exist: " +:+ libDir))
   else mret tt);;
  libsFoundInDir ← enumerate builder libDir;
  log_info "install" (EOL +:+ "Found the following libs:") [];;
  forEach libsFoundInDir (fun lib =>
    log_info "install" (pc_yellow "%s" +:+ ": " +:+ pc_green "%s")
             [opencvModule lib; default "undefined" (libPath lib)]);;
  defines ← getOPENCV4NODEJS_DEFINES libsFoundInDir;
  let OPENCV4NODEJS_DEFINES := join ";" defines in
  includes ← getOPENCV4NODEJS_INCLUDES (env builder) libsFoundInDir;
  let OPENCV4NODEJS_INCLUDES := join ";" includes in
  libraries ← getOPENCV4NODEJS_LIBRARIES libDir libsFoundInDir;
  let OPENCV4NODEJS_LIBRARIES := join ";" libraries in
  setenv "OPENCV4NODEJS_DEFINES" OPENCV4NODEJS_DEFINES;;
  setenv "OPENCV4NODEJS_INCLUDES" OPENCV4NODEJS_INCLUDES;;
  setenv "OPENCV4NODEJS_LIBRARIES" OPENCV4NODEJS_LIBRARIES;;
  mret (OPENCV4NODEJS_DEFINES, OPENCV4NODEJS_INCLUDES, OPENCV4NODEJS_LIBRARIES).

(** compileLib, lines 97 to 103. *)
Definition options_of (parsed : Argv) : OpenCVBuildEnvParams :=
  {| autoBuildOpencvVersion := arg_version parsed;
     autoBuildFlags := arg_flags parsed;
     autoBuildBuildCuda := truthy (arg_cuda parsed);
     autoBuildWithoutContrib := truthy (arg_nocontrib parsed);
     disableAutoBuild := truthy (arg_nobuild parsed) |}.

(** The condition of line 92. *)
Definition usage_requested (args : list string) : bool :=
  let parsed := mri args in
  truthy (arg_help parsed) || truthy (arg_h parsed) || negb (bool_decide ("build" ∈ args)).

(** The loop of lines 114 to 116 runs over the keys of a one-element
    array, so [K] is ['0'] and [options['0']] is undefined: it prints
    nothing and is left out.  The promise of the async function is
    settled when the body ends: fulfilled for [Ok], rejected for [Throw]. *)
Definition compileLib (args : list string) : M unit :=
  let parsed := mri args in
  if usage_requested args then
    emit (console_log [PStr usage])
  else
    let options := options_of parsed in
    let JOBS := select_JOBS parsed in
    let dryRun := js_or (arg_dryrun parsed) (arg_dry_run parsed) in
    '(OPENCV4NODEJS_DEFINES, OPENCV4NODEJS_INCLUDES, OPENCV4NODEJS_LIBRARIES) ← configure options;
    launch JOBS dryRun OPENCV4NODEJS_DEFINES OPENCV4NODEJS_INCLUDES OPENCV4NODEJS_LIBRARIES.

End CompileLib.

(** ** Vocabulary of the properties *)

Section Vocabulary.
Context {node : Runtime}.

(** The define of a module and the link arguments of a list of modules,
    as values. *)
Definition define_of (lib : OpencvModule) : string :=
  "OPENCV4NODEJS_FOUND_LIBRARY_" +:+ toUpperCase (opencvModule lib).

Definition link_args (libDir : string) (libs : list OpencvModule) : list string :=
  if isWin then map (fun lib => resolvePath (libPath lib)) libs
  else ("-L" +:+ libDir) :: map (fun lib => "-lopencv_" +:+ opencvModule lib) libs
         ++ ["-Wl,-rpath," +:+ libDir].

(** The world after the staging of line 156 to 158: the active descriptor
    is a copy of the hidden one, when there is a hidden one. *)
Definition stage (w : World) : World :=
  match files w !! hidenGyp with
  | Some c => {| process_env := process_env w; files := <[realGyp := c]> (files w);
                 trace := trace w |}
  | None => w
  end.

Definition staging (w : World) : list Event :=
  if bool_decide (is_Some (files w !! hidenGyp)) then [copyFile hidenGyp realGyp] else [].

(** The error of the staging, if the copy of line 157 is attempted and
    fails. *)
Definition copy_blocked (w : World) : option JsError :=
  match files w !! hidenGyp with
  | Some _ => copy_failure (files w) hidenGyp realGyp
  | None => None
  end.

(** The pipe calls of lines 184 and 185 for the child of a command. *)
Definition piping (cmd : string) : list Event :=
  (if stdout (child_of cmd cwd) then [pipe_stdout] else [])
    ++ (if stderr (child_of cmd cwd) then [pipe_stderr] else []).

(** The command line for a value of [JOBS], with or without the debug
    flag. *)
Definition command_line (debug : bool) (JOBS : JsVal) : string :=
  "node-gyp rebuild " +:+ (if debug then " --debug" else "") +:+ " --jobs " +:+ toString JOBS.

Definition debug_set (w : World) : bool := truthy_opt (process_env w !! "BINDINGS_DEBUG").

Definition spawning_log (cmd : string) : Event :=
  npmlog level_info "install" ("Spawning in " +:+ cwd +:+ " node gyp process: " +:+ cmd) [].

(** What a dry run prints. *)
Definition dry_run_output (DEFINES INCLUDES LIBRARIES cmd : string) : list Event :=
  [ console_log [PStr ""];
    console_log [PStr ("export OPENCV4NODEJS_DEFINES=" +:+ dquote +:+ DEFINES +:+ dquote)];
    console_log [PStr ("export OPENCV4NODEJS_INCLUDES=" +:+ dquote +:+ INCLUDES +:+ dquote)];
    console_log [PStr ("export OPENCV4NODEJS_LIBRARIES=" +:+ dquote +:+ LIBRARIES +:+ dquote)];
    console_log [PStr ""];
    console_log [PStr cmd];
    console_log [PStr ""] ].



End Vocabulary.

(** [quiet P m]: whatever the world, [m] only adds events, all of them in
    [P]. *)
Definition quiet {A : Type} (P : Event -> Prop) (m : M A) : Prop :=
  ∀ w, ∃ evs, trace (m w).2 = trace w ++ evs ∧ Forall P evs.

Definition spawns (e : Event) : Prop :=
  match e with exec _ _ => True | _ => False end.

Definition deletes (e : Event) : Prop :=
  match e with unlink _ => True | _ => False end.

(** The children started in a trace: the command and the directory of
    each [exec], in order. *)
Fixpoint started (tr : list Event) : list (string * string) :=
  match tr with
  | [] => []
  | exec cmd dir :: r => (cmd, dir) :: started r
  | _ :: r => started r
  end.

(** What was printed with [console.log] in a trace, in order. *)
Fixpoint printed (tr : list Event) : list (list Printed) :=
  match tr with
  | [] => []
  | console_log args :: r => args :: printed r
  | _ :: r => printed r
  end.

Definition pipes (e : Event) : Prop :=
  match e with pipe_stdout | pipe_stderr => True | _ => False end.

Definition prints (e : Event) : Prop :=
  match e with console_log _ => True | _ => False end.

Definition copies (e : Event) : Prop :=
  match e with copyFile _ _ => True | _ => False end.

(** ** A concrete installation

    One POSIX and one Windows runtime with a builder that finds two
    modules and misses a third, used to run the definitions. *)

Module Sample.

Definition no_options : Argv :=
  {| arg_help := JUndefined; arg_h := JUndefined; arg_version := JUndefined;
     arg_flags := JUndefined; arg_cuda := JUndefined; arg_nocontrib := JUndefined;
     arg_nobuild := JUndefined; arg_jobs := JUndefined; arg_j := JUndefined;
     arg_dryrun := JUndefined; arg_dry_run := JUndefined |}.

Definition with_jobs (jobs j dry_run nobuild : JsVal) : Argv :=
  {| arg_help := JUndefined; arg_h := JUndefined; arg_version := JUndefined;
     arg_flags := JUndefined; arg_cuda := JUndefined; arg_nocontrib := JUndefined;
     arg_nobuild := nobuild; arg_jobs := jobs; arg_j := j;
     arg_dryrun := JUndefined; arg_dry_run := dry_run |}.

(** The records that mri returns for the command lines of the examples:
    a numeric argument becomes a number, an option without a value is
    [true]. *)
Definition mri_of (args : list string) : Argv :=
  match args with
  | ["build"; "--dry-run"] => with_jobs JUndefined JUndefined (JBool true) JUndefined
  | ["build"; "--dry-run"; "--jobs"; "4"] => with_jobs (JNum 4) JUndefined (JBool true) JUndefined
  | ["build"; "--jobs"; "4"] => with_jobs (JNum 4) JUndefined JUndefined JUndefined
  | ["build"; "--jobs"; "0"] => with_jobs (JNum 0) JUndefined JUndefined JUndefined
  | ["build"; "--jobs"; "4"; "-j"; "0"] => with_jobs (JNum 4) (JNum 0) JUndefined JUndefined
  | ["build"; "--jobs"; "4"; "-j"; "2"] => with_jobs (JNum 4) (JNum 2) JUndefined JUndefined
  | ["build"; "--nobuild"] => with_jobs JUndefined JUndefined JUndefined (JBool true)
  | _ => no_options
  end.

Definition core : OpencvModule :=
  {| opencvModule := "core"; libPath := Some "/opt/opencv-build/lib/libopencv_core.so" |}.
Definition imgproc : OpencvModule :=
  {| opencvModule := "imgproc"; libPath := Some "/opt/opencv-build/lib/libopencv_imgproc.so" |}.
Definition cudaarithm : OpencvModule :=
  {| opencvModule := "cudaarithm"; libPath := None |}.

Definition builder (libs : list OpencvModule) (options : OpenCVBuildEnvParams) : OpenCVBuilder :=
  {| env := {| isAutoBuildDisabled := disableAutoBuild options;
               opencvVersion := "4.5.5";
               opencvLibDir := Some "/opt/opencv-build/lib";
               opencvInclude := Some "/opt/opencv-build/include";
               opencv4Include := Some "/opt/opencv-build/include/opencv4" |};
     install := fun a => (Ok tt, a);
     getLibs := fun a => (Ok libs, a) |}.

(** [path.join] for the three paths that compileLib builds from the
    directory of the script. *)
Definition join_paths (a b : string) : string :=
  if String.eqb b ".." then "/opt/opencv4nodejs" else a +:+ "/" +:+ b.

Definition posix : Runtime :=
  {| isWin := false;
     EOL := String (Ascii.ascii_of_nat 10) EmptyString;
     mri := mri_of;
     path_resolve := fun p => p;
     path_join := join_paths;
     __dirname := "/opt/opencv4nodejs/install";
     pc_green := fun s => s;
     pc_yellow := fun s => s;
     new_OpenCVBuilder := fun options a => (Ok (builder [core; cudaarithm; imgproc] options), a);
     copy_failure := fun _ _ _ => None;
     child_of := fun _ _ => {| stdout := true; stderr := true |} |}.

Definition win32 : Runtime :=
  {| isWin := true;
     EOL := String (Ascii.ascii_of_nat 13) (String (Ascii.ascii_of_nat 10) EmptyString);
     mri := mri_of;
     path_resolve := fun p => p;
     path_join := join_paths;
     __dirname := "/opt/opencv4nodejs/install";
     pc_green := fun s => s;
     pc_yellow := fun s => s;
     new_OpenCVBuilder := fun options a => (Ok (builder [core; cudaarithm; imgproc] options), a);
     copy_failure := fun _ _ _ => None;
     child_of := fun _ _ => {| stdout := true; stderr := true |} |}.

(** A builder that finds no library file at all. *)
Definition bare : Runtime :=
  {| isWin := false;
     EOL := String (Ascii.ascii_of_nat 10) EmptyString;
     mri := mri_of;
     path_resolve := fun p => p;
     path_join := join_paths;
     __dirname := "/opt/opencv4nodejs/install";
     pc_green := fun s => s;
     pc_yellow := fun s => s;
     new_OpenCVBuilder := fun options a => (Ok (builder [cudaarithm] options), a);
     copy_failure := fun _ _ _ => None;
     child_of := fun _ _ => {| stdout := true; stderr := true |} |}.

(** The library directory is there; the hidden descriptor is shipped. *)
Definition installed : World :=
  {| process_env := ∅;
     files := {[ "/opt/opencv-build/lib" := "";
                 "/opt/opencv4nodejs/_binding.gyp" := "{ 'targets': [] }" ]};
     trace := [] |}.

(** The same with a library directory named by the environment. *)
Definition overridden : World :=
  {| process_env := {[ "OPENCV_LIB_DIR" := "/custom/lib" ]};
     files := {[ "/custom/lib" := "";
                 "/opt/opencv4nodejs/_binding.gyp" := "{ 'targets': [] }" ]};
     trace := [] |}.



(** The options of a command line without any. *)
Definition options : OpenCVBuildEnvParams := options_of no_options.

End Sample.

(** ** The stages of the configuration

    Names for the worlds and the intermediate steps of [configure], used
    to state what happens at each stage of compileLib. *)

(** The world that a collaborator leaves, under a given trace. *)
Definition world_of (a : Ambient) (tr : list Event) : World :=
  {| process_env := amb_env a; files := amb_files a; trace := tr |}.

(** What a collaborator sees of a world. *)
Definition ambient_of (w : World) : Ambient :=
  {| amb_env := process_env w; amb_files := files w |}.

(** The world after the three assignments of lines 141 to 143. *)
Definition exported (DEFINES INCLUDES LIBRARIES : string) (w : World) : World :=
  {| process_env :=
       <["OPENCV4NODEJS_LIBRARIES" := LIBRARIES]>
         (<["OPENCV4NODEJS_INCLUDES" := INCLUDES]>
            (<["OPENCV4NODEJS_DEFINES" := DEFINES]> (process_env w)));
     files := files w;
     trace := trace w |}.

Section Stages.
Context {node : Runtime}.

(** The value of getLibDir, as a function of the environment. *)
Definition lib_dir (env : OpenCVBuildEnv) (penv : gmap string string) : Result string :=
  if isAutoBuildDisabled env then
    if nonempty (resolvePath (penv !! "OPENCV_LIB_DIR"))
    then Ok (resolvePath (penv !! "OPENCV_LIB_DIR"))
    else if isWin
    then Throw (Error "OPENCV_LIB_DIR has to be defined on windows when auto build is disabled")
    else Ok "/usr/local/lib"
  else
    if nonempty (resolvePath (opencvLibDir env))
    then Ok (resolvePath (opencvLibDir env))
    else Throw (Error "failed to resolve opencvLibDir path").

(** The value of getOPENCV4NODEJS_INCLUDES, as a function of the
    environment. *)
Definition include_dirs (env : OpenCVBuildEnv) (penv : gmap string string)
  : Result (list string) :=
  if isAutoBuildDisabled env then
    if truthy_opt (penv !! "OPENCV_INCLUDE_DIR")
       && nonempty (resolvePath (penv !! "OPENCV_INCLUDE_DIR"))
    then Ok [resolvePath (penv !! "OPENCV_INCLUDE_DIR")]
    else if isWin
    then Throw (Error "OPENCV_INCLUDE_DIR has to be defined on windows when auto build is disabled")
    else Ok ["/usr/local/include"; "/usr/local/include/opencv4"]
  else Ok [resolvePath (opencvInclude env); resolvePath (opencv4Include env)].

(** The end of [configure], lines 136 to 143, for the modules found. *)
Definition derive (builder : OpenCVBuilder) (libDir : string)
    (libsFoundInDir : list OpencvModule) : M (string * string * string) :=
  log_info "install" (EOL +:+ "Found the following libs:") [];;
  forEach libsFoundInDir (fun lib =>
    log_info "install" (pc_yellow "%s" +:+ ": " +:+ pc_green "%s")
             [opencvModule lib; default "undefined" (libPath lib)]);;
  defines ← getOPENCV4NODEJS_DEFINES libsFoundInDir;
  let OPENCV4NODEJS_DEFINES := join ";" defines in
  includes ← getOPENCV4NODEJS_INCLUDES (env builder) libsFoundInDir;
  let OPENCV4NODEJS_INCLUDES := join ";" includes in
  libraries ← getOPENCV4NODEJS_LIBRARIES libDir libsFoundInDir;
  let OPENCV4NODEJS_LIBRARIES := join ";" libraries in
  setenv "OPENCV4NODEJS_DEFINES" OPENCV4NODEJS_DEFINES;;
  setenv "OPENCV4NODEJS_INCLUDES" OPENCV4NODEJS_INCLUDES;;
  setenv "OPENCV4NODEJS_LIBRARIES" OPENCV4NODEJS_LIBRARIES;;
  mret (OPENCV4NODEJS_DEFINES, OPENCV4NODEJS_INCLUDES, OPENCV4NODEJS_LIBRARIES).

(** The part of [configure] from line 125 on, for a library directory. *)
Definition from_directory (builder : OpenCVBuilder) (libDir : string)
  : M (string * string * string) :=
  present ← existsSync libDir;
  (if negb present then external (install builder) else mret tt);;
  present ← existsSync libDir;
  (if negb present then throw (Error ("library dir does not exist: " +:+ libDir))
   else mret tt);;
  libsFoundInDir ← enumerate builder libDir;
  derive builder libDir libsFoundInDir.

End Stages.

(** [ensures Q m]: whenever [m] returns, its value and world are in [Q]. *)
Definition ensures {A : Type} (Q : A -> World -> Prop) (m : M A) : Prop :=
  ∀ w a w', m w = (Ok a, w') -> Q a w'.

(** The three variables are in the environment under the returned values. *)
Definition is_exported (r : string * string * string) (w : World) : Prop :=
  process_env w !! "OPENCV4NODEJS_DEFINES" = Some r.1.1
  ∧ process_env w !! "OPENCV4NODEJS_INCLUDES" = Some r.1.2
  ∧ process_env w !! "OPENCV4NODEJS_LIBRARIES" = Some r.2.

(** The library directory is there for the listing: either it was there
    when the builder had been made ([a2] is [a1]), or it was missing and
    the install step, run in [a1], has made it in [a2]. *)
Definition directory_ready (builder : OpenCVBuilder) (libDir : string) (a1 a2 : Ambient) : Prop :=
  (is_Some (amb_files a1 !! libDir) ∧ a2 = a1)
  ∨ (amb_files a1 !! libDir = None
     ∧ install builder a1 = (Ok tt, a2)
     ∧ is_Some (amb_files a2 !! libDir)).


(** A lower-case ASCII letter, and a string without any. *)
Definition is_lower (c : ascii) : bool :=
  let n := Ascii.nat_of_ascii c in (97 <=? n)%nat && (n <=? 122)%nat.

Fixpoint no_lower (s : string) : bool :=
  match s with
  | EmptyString => true
  | String c r => negb (is_lower c) && no_lower r
  end.

(** ** Installations that fail *)

Module Faults.

(** A runtime around a given constructor of the builder. *)
Definition runtime (win : bool)
    (new : OpenCVBuildEnvParams -> Ambient -> Result OpenCVBuilder * Ambient) : Runtime :=
  {| isWin := win;
     EOL := String (Ascii.ascii_of_nat 10) EmptyString;
     mri := Sample.mri_of;
     path_resolve := fun p => p;
     path_join := Sample.join_paths;
     __dirname := "/opt/opencv4nodejs/install";
     pc_green := fun s => s;
     pc_yellow := fun s => s;
     new_OpenCVBuilder := new;
     copy_failure := fun _ _ _ => None;
     child_of := fun _ _ => {| stdout := true; stderr := true |} |}.

Definition build_env (options : OpenCVBuildEnvParams) : OpenCVBuildEnv :=
  {| isAutoBuildDisabled := disableAutoBuild options;
     opencvVersion := "4.5.5";
     opencvLibDir := Some "/opt/opencv-build/lib";
     opencvInclude := Some "/opt/opencv-build/include";
     opencv4Include := Some "/opt/opencv-build/include/opencv4" |}.

Definition lib_directory : string := "/opt/opencv-build/lib".

Definition offline_error : JsError := Error "getaddrinfo ENOTFOUND github.com".
Definition unreadable_error : JsError := Error "EACCES: permission denied, scandir".
Definition version_error : JsError := Error "unsupported OpenCV version".

(** The download of the install step fails. *)
Definition offline_builder (options : OpenCVBuildEnvParams) : OpenCVBuilder :=
  {| env := build_env options;
     install := fun a => (Throw offline_error, a);
     getLibs := fun a => (Ok [Sample.core; Sample.imgproc], a) |}.

(** The library directory cannot be listed; the install step would fail
    as well. *)
Definition unreadable_builder (options : OpenCVBuildEnvParams) : OpenCVBuilder :=
  {| env := build_env options;
     install := fun a => (Throw offline_error, a);
     getLibs := fun a => (Throw unreadable_error, a) |}.

(** The install step builds the library: it creates the directory. *)
Definition working_builder (options : OpenCVBuildEnvParams) : OpenCVBuilder :=
  {| env := build_env options;
     install := fun a =>
       (Ok tt, {| amb_env := amb_env a;
                  amb_files := <["/opt/opencv-build/lib" := ""]> (amb_files a) |});
     getLibs := fun a => (Ok [Sample.core; Sample.imgproc], a) |}.

(** The builder of the build has no include directories. *)
Definition bare_builder (options : OpenCVBuildEnvParams) : OpenCVBuilder :=
  {| env := {| isAutoBuildDisabled := false;
               opencvVersion := "4.5.5";
               opencvLibDir := Some "/opt/opencv-build/lib";
               opencvInclude := None;
               opencv4Include := None |};
     install := fun a => (Ok tt, a);
     getLibs := fun a => (Ok [Sample.core], a) |}.

Definition offline : Runtime := runtime false (fun options a => (Ok (offline_builder options), a)).
Definition unreadable : Runtime :=
  runtime false (fun options a => (Ok (unreadable_builder options), a)).
Definition working : Runtime := runtime false (fun options a => (Ok (working_builder options), a)).
Definition rejected : Runtime := runtime false (fun options a => (Throw version_error, a)).

(** The error of a copy onto a directory. *)
Definition EISDIR : JsError :=
  {| name := "Error";
     message := "EISDIR: illegal operation on a directory, copyfile '/opt/opencv4nodejs/_binding.gyp' -> '/opt/opencv4nodejs/binding.gyp'";
     code := JStr "EISDIR" |}.

(** The sample installation where binding.gyp is a directory: the copy of
    the hidden descriptor fails. *)
Definition blocked : Runtime :=
  {| isWin := false;
     EOL := String (Ascii.ascii_of_nat 10) EmptyString;
     mri := Sample.mri_of;
     path_resolve := fun p => p;
     path_join := Sample.join_paths;
     __dirname := "/opt/opencv4nodejs/install";
     pc_green := fun s => s;
     pc_yellow := fun s => s;
     new_OpenCVBuilder := fun options a =>
       (Ok (Sample.builder [Sample.core; Sample.cudaarithm; Sample.imgproc] options), a);
     copy_failure := fun _ _ _ => Some EISDIR;
     child_of := fun _ _ => {| stdout := true; stderr := true |} |}.

(** Nothing is installed yet, but the package ships its descriptor. *)
Definition fresh : World :=
  {| process_env := ∅;
     files := {[ "/opt/opencv4nodejs/_binding.gyp" := "{ 'targets': [] }" ]};
     trace := [] |}.


End Faults.

(** ** Running the monad *)

Lemma add_events_nil w : add_events [] w = w.
Proof. destruct w; unfold add_events; simpl; by rewrite app_nil_r. Qed.

Lemma add_events_app evs1 evs2 w :
  add_events evs2 (add_events evs1 w) = add_events (evs1 ++ evs2) w.
Proof. unfold add_events; simpl; by rewrite app_assoc. Qed.

(** A loop that only logs or prints never throws: it appends one event per
    element, in order. *)
Lemma forEach_emit {A : Type} (f : A -> Event) (l : list A) w :
  forEach l (fun x => emit (f x)) w = (Ok tt, add_events (map f l) w).
Proof.
  revert w; induction l as [|x l IH]; intros w; simpl.
  - by rewrite add_events_nil.
  - unfold mbind, M_bind, emit at 1. rewrite IH.
    by rewrite add_events_app.
Qed.

Ltac run := unfold mbind, M_bind, mret, M_ret, throw, log_info, log_error, emit, getenv; simpl.

(** ** Directories and derived flags *)

Section Directories.
Context {node : Runtime}.

Lemma getDefaultLibDir_run w :
  getDefaultLibDir w =
    (if isWin
     then Throw (Error "OPENCV_LIB_DIR has to be defined on windows when auto build is disabled")
     else Ok "/usr/local/lib",
     add_events [npmlog level_info "install"
                   "OPENCV_LIB_DIR is not set, looking for default lib dir" []] w).
Proof. unfold getDefaultLibDir. run. by destruct isWin. Qed.

Lemma getDefaultIncludeDirs_run w :
  getDefaultIncludeDirs w =
    (if isWin
     then Throw (Error "OPENCV_INCLUDE_DIR has to be defined on windows when auto build is disabled")
     else Ok ["/usr/local/include"; "/usr/local/include/opencv4"],
     add_events [npmlog level_info "install"
                   "OPENCV_INCLUDE_DIR is not set, looking for default include dir" []] w).
Proof. unfold getDefaultIncludeDirs. run. by destruct isWin. Qed.

(** C7. Off Windows the default library directory is /usr/local/lib and
    the default include directories are /usr/local/include and
    /usr/local/include/opencv4, in this order; on Windows both functions
    throw the error that asks for the directory to be defined (the
    configuration error of the specification) and return nothing. *)
Theorem default_dirs_by_platform (w : World) :
  (getDefaultLibDir w).1 =
    (if isWin
     then Throw (Error "OPENCV_LIB_DIR has to be defined on windows when auto build is disabled")
     else Ok "/usr/local/lib")
  ∧ (getDefaultIncludeDirs w).1 =
    (if isWin
     then Throw (Error "OPENCV_INCLUDE_DIR has to be defined on windows when auto build is disabled")
     else Ok ["/usr/local/include"; "/usr/local/include/opencv4"]).
Proof. by rewrite getDefaultLibDir_run, getDefaultIncludeDirs_run. Qed.

(** C8. With auto build disabled, getLibDir returns the resolved
    OPENCV_LIB_DIR when that is a non-empty path and otherwise what the
    platform default gives (/usr/local/lib, or the error on Windows); with
    auto build enabled it returns the resolved directory of the builder,
    and throws when that does not resolve to a non-empty path. *)
Theorem getLibDir_result (env : OpenCVBuildEnv) (w : World) :
  (getLibDir env w).1 =
    if isAutoBuildDisabled env then
      if nonempty (resolvePath (process_env w !! "OPENCV_LIB_DIR"))
      then Ok (resolvePath (process_env w !! "OPENCV_LIB_DIR"))
      else if isWin
      then Throw (Error "OPENCV_LIB_DIR has to be defined on windows when auto build is disabled")
      else Ok "/usr/local/lib"
    else
      if nonempty (resolvePath (opencvLibDir env))
      then Ok (resolvePath (opencvLibDir env))
      else Throw (Error "failed to resolve opencvLibDir path").
Proof.
  unfold getLibDir. destruct (isAutoBuildDisabled env).
  - run. destruct (nonempty _); [done|]. by rewrite getDefaultLibDir_run.
  - by destruct (nonempty _).
Qed.

(** The override wins exactly when the variable is set to a non-empty
    string that [path.resolve] does not map to the empty one. *)
Lemma resolvePath_nonempty (o : option string) :
  nonempty (resolvePath o) = true ->
  ∃ p, o = Some p ∧ nonempty p = true ∧ resolvePath o = path_resolve p.
Proof.
  destruct o as [p|]; simpl; [|done].
  destruct (nonempty p) eqn:Hp; [|done]. eauto.
Qed.

Lemma resolvePath_absent : resolvePath None = "" ∧ resolvePath (Some "") = "".
Proof. done. Qed.

Lemma log_each (prefix : string) (f : string -> string) (l : list string) w :
  forEach l (fun x => log_info prefix (f x) []) w
  = (Ok tt, add_events (map (fun x => npmlog level_info prefix (f x) []) l) w).
Proof. unfold log_info. by rewrite forEach_emit. Qed.

Lemma getOPENCV4NODEJS_INCLUDES_run env libs w :
  ∃ evs, getOPENCV4NODEJS_INCLUDES env libs w =
    ((if isAutoBuildDisabled env then
        if truthy_opt (process_env w !! "OPENCV_INCLUDE_DIR")
           && nonempty (resolvePath (process_env w !! "OPENCV_INCLUDE_DIR"))
        then Ok [resolvePath (process_env w !! "OPENCV_INCLUDE_DIR")]
        else if isWin
        then Throw (Error "OPENCV_INCLUDE_DIR has to be defined on windows when auto build is disabled")
        else Ok ["/usr/local/include"; "/usr/local/include/opencv4"]
      else Ok [resolvePath (opencvInclude env); resolvePath (opencv4Include env)]),
     add_events evs w)
    ∧ Forall is_log evs.
Proof.
  unfold getOPENCV4NODEJS_INCLUDES.
  unfold mbind at 1, M_bind at 1, getenv at 1.
  destruct (isAutoBuildDisabled env).
  - destruct (truthy_opt (process_env w !! "OPENCV_INCLUDE_DIR")) eqn:Hset; simpl.
    + destruct (nonempty (resolvePath _)) eqn:Hres.
      * eexists. unfold mbind, M_bind, mret, M_ret.
        unfold log_info at 1, emit. rewrite log_each, !add_events_app.
        split; [reflexivity|]. simpl. by repeat constructor.
      * unfold mbind at 1, M_bind at 1. rewrite getDefaultIncludeDirs_run.
        destruct isWin.
        -- eexists; split; [reflexivity|]. by repeat constructor.
        -- eexists. unfold mbind, M_bind, mret, M_ret.
           unfold log_info at 1, emit. rewrite log_each, !add_events_app.
           split; [reflexivity|]. simpl. by repeat constructor.
    + unfold mbind at 1, M_bind at 1. rewrite getDefaultIncludeDirs_run.
      destruct isWin.
      * eexists; split; [reflexivity|]. by repeat constructor.
      * eexists. unfold mbind, M_bind, mret, M_ret.
        unfold log_info at 1, emit. rewrite log_each, !add_events_app.
        split; [reflexivity|]. simpl. by repeat constructor.
  - eexists. unfold mbind, M_bind, mret, M_ret.
    unfold log_info at 1, emit. rewrite log_each, !add_events_app.
    split; [reflexivity|]. simpl. by repeat constructor.
Qed.

(** C6. With auto build disabled the includes are the one resolved
    OPENCV_INCLUDE_DIR when the variable is set and resolves to a
    non-empty path, and otherwise the platform default include
    directories (the error on Windows); with auto build enabled they are
    the resolved base and opencv4 include directories of the builder, in
    this order. *)
Theorem getOPENCV4NODEJS_INCLUDES_result
    (env : OpenCVBuildEnv) (libs : list OpencvModule) (w : World) :
  (getOPENCV4NODEJS_INCLUDES env libs w).1 =
    if isAutoBuildDisabled env then
      if truthy_opt (process_env w !! "OPENCV_INCLUDE_DIR")
         && nonempty (resolvePath (process_env w !! "OPENCV_INCLUDE_DIR"))
      then Ok [resolvePath (process_env w !! "OPENCV_INCLUDE_DIR")]
      else if isWin
      then Throw (Error "OPENCV_INCLUDE_DIR has to be defined on windows when auto build is disabled")
      else Ok ["/usr/local/include"; "/usr/local/include/opencv4"]
    else Ok [resolvePath (opencvInclude env); resolvePath (opencv4Include env)].
Proof. by destruct (getOPENCV4NODEJS_INCLUDES_run env libs w) as (evs & -> & _). Qed.

Lemma getOPENCV4NODEJS_DEFINES_run libs w :
  getOPENCV4NODEJS_DEFINES libs w =
    (Ok (map define_of libs),
     add_events (npmlog level_info "defines" (EOL +:+ "Setting the following defines:") []
                   :: map (fun def => npmlog level_info "defines" (pc_yellow def) [])
                          (map define_of libs)) w).
Proof.
  unfold getOPENCV4NODEJS_DEFINES. unfold mbind, M_bind, mret, M_ret.
  unfold log_info at 1, emit. by rewrite log_each, !add_events_app.
Qed.




Lemma getOPENCV4NODEJS_LIBRARIES_run libDir libs w :
  getOPENCV4NODEJS_LIBRARIES libDir libs w =
    (Ok (link_args libDir libs),
     add_events (npmlog level_info "libs" (EOL +:+ "Setting the following libs:") []
                   :: map (fun lib => npmlog level_info "libs" ("" +:+ lib) [])
                          (link_args libDir libs)) w).
Proof.
  unfold getOPENCV4NODEJS_LIBRARIES. unfold mbind, M_bind, mret, M_ret.
  unfold log_info at 1, emit. rewrite (log_each "libs" (fun lib => "" +:+ lib)), !add_events_app.
  unfold link_args. by destruct isWin.
Qed.

(** C4. Off Windows the link arguments are -L with the library
    directory, then one -lopencv_ token per module in the order of the
    modules, then one -Wl,-rpath, token with the library directory; on
    Windows they are the resolved library paths of the modules, one per
    module and in their order, and nothing else. *)
Theorem getOPENCV4NODEJS_LIBRARIES_result
    (libDir : string) (libs : list OpencvModule) (w : World) :
  ∃ tokens : list string,
    (getOPENCV4NODEJS_LIBRARIES libDir libs w).1 = Ok tokens
    ∧ if isWin then
        tokens = map (fun lib => resolvePath (libPath lib)) libs
        ∧ length tokens = length libs
        ∧ ∀ (i : nat) (lib : OpencvModule),
            libs !! i = Some lib -> tokens !! i = Some (resolvePath (libPath lib))
      else
        tokens = ["-L" +:+ libDir]
                   ++ map (fun lib => "-lopencv_" +:+ opencvModule lib) libs
                   ++ ["-Wl,-rpath," +:+ libDir]
        ∧ length tokens = S (S (length libs))
        ∧ tokens !! 0%nat = Some ("-L" +:+ libDir)
        ∧ (∀ (i : nat) (lib : OpencvModule),
             libs !! i = Some lib -> tokens !! S i = Some ("-lopencv_" +:+ opencvModule lib))
        ∧ tokens !! S (length libs) = Some ("-Wl,-rpath," +:+ libDir).
Proof.
  exists (link_args libDir libs). rewrite getOPENCV4NODEJS_LIBRARIES_run.
  split; [done|]. unfold link_args. destruct isWin.
  - split; [done|]. split; [by rewrite length_map|].
    intros i lib Hi. by rewrite list_lookup_fmap, Hi.
  - split; [done|]. split; [|split; [done|split]].
    + simpl. rewrite length_app, length_map. simpl. lia.
    + intros i lib Hi. simpl.
      rewrite lookup_app_l by (rewrite length_map; by eapply lookup_lt_Some).
      by rewrite list_lookup_fmap, Hi.
    + simpl. rewrite lookup_app_r by (by rewrite length_map).
      by rewrite length_map, Nat.sub_diag.
Qed.

End Directories.

(** ** Enumeration of the libraries *)

Section Enumeration.

(** A module is found when its library path is a non-empty string. *)
Lemma found_spec (lib : OpencvModule) :
  found lib = true ↔ ∃ p, libPath lib = Some p ∧ p ≠ "".
Proof.
  unfold found, truthy_opt. destruct (libPath lib) as [p|].
  - rewrite negb_true_iff. split.
    + intros Hp. exists p. split; [done|]. intros ->. by rewrite String.eqb_refl in Hp.
    + intros (q & [= <-] & Hq). by apply String.eqb_neq.
  - split; [done|]. by intros (? & ? & _).
Qed.

Lemma enumerate_run builder libDir w libsInDir a :
  getLibs builder {| amb_env := process_env w; amb_files := files w |} = (Ok libsInDir, a) ->
  enumerate builder libDir w =
    (if decide (filter (fun lib => found lib) libsInDir = [])
     then Throw (Error ("no OpenCV libraries found in lib dir: " +:+ libDir))
     else Ok (filter (fun lib => found lib) libsInDir),
     {| process_env := amb_env a; files := amb_files a; trace := trace w |}).
Proof.
  intros Hlibs. unfold enumerate, mbind, M_bind, external. rewrite Hlibs.
  destruct (filter _ libsInDir) as [|lib l]; by simpl.
Qed.

(** C9. Given the listing of the builder, the enumeration returns exactly
    the modules of the listing whose library path is present (a non-empty
    string), in the order of the listing and without duplicating any;
    when none is left it throws the error about no libraries found instead
    of returning the empty sequence; filtering once more changes
    nothing. *)
Theorem enumerate_result
    (builder : OpenCVBuilder) (libDir : string) (w : World)
    (libsInDir : list OpencvModule) (a : Ambient) :
  getLibs builder {| amb_env := process_env w; amb_files := files w |} = (Ok libsInDir, a) ->
  let libsFoundInDir := filter (fun lib => found lib) libsInDir in
  (enumerate builder libDir w).1 =
    (if decide (libsFoundInDir = [])
     then Throw (Error ("no OpenCV libraries found in lib dir: " +:+ libDir))
     else Ok libsFoundInDir)
  ∧ libsFoundInDir `sublist_of` libsInDir
  ∧ (∀ lib, lib ∈ libsFoundInDir ↔ lib ∈ libsInDir ∧ ∃ p, libPath lib = Some p ∧ p ≠ "")
  ∧ (NoDup libsInDir -> NoDup libsFoundInDir)
  ∧ filter (fun lib => found lib) libsFoundInDir = libsFoundInDir.
Proof.
  intros Hlibs libsFoundInDir. rewrite (enumerate_run _ _ _ _ _ Hlibs).
  split; [done|]. split; [apply sublist_filter|]. split; [|split].
  - intros lib. unfold libsFoundInDir. rewrite list_elem_of_filter, Is_true_true, found_spec.
    tauto.
  - apply NoDup_filter.
  - unfold libsFoundInDir. rewrite list_filter_filter.
    apply list_filter_iff. tauto.
Qed.

End Enumeration.

(** ** Effects of the build *)

Section Quiet.
Context {P : Event -> Prop}.

Lemma quiet_ret {A : Type} (a : A) : quiet P (mret a).
Proof. intros w. exists []. by rewrite app_nil_r. Qed.

Lemma quiet_throw {A : Type} (e : JsError) : quiet P (throw e : M A).
Proof. intros w. exists []. by rewrite app_nil_r. Qed.

Lemma quiet_emit (e : Event) : P e -> quiet P (emit e).
Proof. intros He w. exists [e]. split; [done|]. by constructor. Qed.

Lemma quiet_log_info p m a : P (npmlog level_info p m a) -> quiet P (log_info p m a).
Proof. apply quiet_emit. Qed.

Lemma quiet_external {A : Type} (f : Ambient -> Result A * Ambient) : quiet P (external f).
Proof.
  intros w. exists []. unfold external. destruct (f _) as [r a]. by rewrite app_nil_r.
Qed.

Lemma quiet_getenv k : quiet P (getenv k).
Proof. intros w. exists []. by rewrite app_nil_r. Qed.

Lemma quiet_setenv k v : quiet P (setenv k v).
Proof. intros w. exists []. by rewrite app_nil_r. Qed.

Lemma quiet_existsSync p : quiet P (existsSync p).
Proof. intros w. exists []. by rewrite app_nil_r. Qed.

Lemma quiet_copyFileSync {node : Runtime} src dst :
  P (copyFile src dst) -> quiet P (copyFileSync src dst).
Proof.
  intros He w. exists [copyFile src dst]. unfold copyFileSync.
  split; [|by constructor].
  destruct (files w !! src); [|done]. by destruct (copy_failure _ _ _).
Qed.

Lemma quiet_bind {A B : Type} (m : M A) (f : A -> M B) :
  quiet P m -> (∀ a, quiet P (f a)) -> quiet P (m ≫= f).
Proof.
  intros Hm Hf w. destruct (Hm w) as (evs1 & Ht1 & HP1).
  unfold mbind, M_bind. destruct (m w) as [[a|e] w1]; simpl in *.
  - destruct (Hf a w1) as (evs2 & Ht2 & HP2). exists (evs1 ++ evs2).
    rewrite Ht2, Ht1, app_assoc. split; [done|]. by apply Forall_app.
  - by exists evs1.
Qed.

Lemma quiet_forEach {A : Type} (l : list A) (f : A -> M unit) :
  (∀ x, quiet P (f x)) -> quiet P (forEach l f).
Proof.
  intros Hf. induction l as [|x l IH]; simpl.
  - apply quiet_ret.
  - apply quiet_bind; [apply Hf | by intros _].
Qed.

Lemma quiet_if {A : Type} (b : bool) (m1 m2 : M A) :
  quiet P m1 -> quiet P m2 -> quiet P (if b then m1 else m2).
Proof. by destruct b. Qed.

End Quiet.

Ltac quiet_step :=
  first
    [ apply quiet_bind; [|intros ?]
    | apply quiet_if
    | apply quiet_ret
    | apply quiet_throw
    | apply quiet_external
    | apply quiet_getenv
    | apply quiet_setenv
    | apply quiet_existsSync
    | apply quiet_forEach; intros ?
    | apply quiet_log_info; solve [auto]
    | apply quiet_copyFileSync; solve [auto]
    | apply quiet_emit; solve [auto] ].

Section Effects.
Context {node : Runtime}.

Lemma launch_run JOBS dryRun DEFINES INCLUDES LIBRARIES w :
  launch JOBS dryRun DEFINES INCLUDES LIBRARIES w =
    match copy_blocked w with
    | Some e => (Throw e, add_events (staging w) w)
    | None =>
        (Ok tt,
         add_events
           (staging w
              ++ spawning_log (command_line (debug_set w) JOBS)
              :: (if truthy dryRun
                  then dry_run_output DEFINES INCLUDES LIBRARIES
                         (command_line (debug_set w) JOBS)
                  else exec (command_line (debug_set w) JOBS) cwd
                         :: piping (command_line (debug_set w) JOBS)))
           (stage w))
    end.
Proof.
  unfold launch, copy_blocked, staging, stage, command_line, debug_set, spawning_log,
    dry_run_output, piping.
  unfold mbind, M_bind, mret, M_ret, getenv, existsSync, copyFileSync, log_info, emit, add_events.
  destruct w as [pe fs tr]; simpl.
  destruct (fs !! hidenGyp) as [c|] eqn:Hh; simpl; rewrite ?Hh; simpl.
  - destruct (copy_failure fs hidenGyp realGyp) as [e|]; [done|].
    destruct (truthy_opt (pe !! "BINDINGS_DEBUG")), (truthy dryRun); simpl;
      try (by rewrite <- ?app_assoc);
      change ("" +:+ " --debug") with " --debug";
      change ("" +:+ " --jobs " +:+ toString JOBS) with (" --jobs " +:+ toString JOBS);
      match goal with |- context [child_of ?c ?d] => destruct (child_of c d) as [[] []] end;
      simpl; by rewrite <- ?app_assoc.
  - destruct (truthy_opt (pe !! "BINDINGS_DEBUG")), (truthy dryRun); simpl;
      try (by rewrite <- ?app_assoc);
      change ("" +:+ " --debug") with " --debug";
      change ("" +:+ " --jobs " +:+ toString JOBS) with (" --jobs " +:+ toString JOBS);
      match goal with |- context [child_of ?c ?d] => destruct (child_of c d) as [[] []] end;
      simpl; by rewrite <- ?app_assoc.
Qed.

(** Everything before the staging only logs. *)
Lemma quiet_configure (P : Event -> Prop) options :
  (∀ e, is_log e -> P e) -> quiet P (configure options).
Proof.
  intros HP.
  assert (Hlog : ∀ l p m a, P (npmlog l p m a)) by (intros; by apply HP).
  unfold configure, enumerate, getOPENCV4NODEJS_DEFINES, getOPENCV4NODEJS_INCLUDES,
    getOPENCV4NODEJS_LIBRARIES, getLibDir, getDefaultLibDir, getDefaultIncludeDirs.
  repeat quiet_step.
Qed.

Lemma trace_stage w : trace (stage w) = trace w.
Proof. unfold stage. by destruct (files w !! hidenGyp). Qed.

Lemma stage_descriptor w c :
  files w !! hidenGyp = Some c -> files (stage w) !! realGyp = Some c.
Proof. intros Hc. unfold stage. rewrite Hc. simpl. apply lookup_insert_eq. Qed.

Lemma compileLib_usage args w :
  usage_requested args = true ->
  compileLib args w = (Ok tt, add_events [console_log [PStr usage]] w).
Proof. intros Hu. unfold compileLib. by rewrite Hu. Qed.

Lemma compileLib_build args w DEFINES INCLUDES LIBRARIES w1 :
  usage_requested args = false ->
  configure (options_of (mri args)) w = (Ok (DEFINES, INCLUDES, LIBRARIES), w1) ->
  compileLib args w =
    launch (select_JOBS (mri args)) (js_or (arg_dryrun (mri args)) (arg_dry_run (mri args)))
           DEFINES INCLUDES LIBRARIES w1.
Proof.
  intros Hu Hc. unfold compileLib. rewrite Hu.
  unfold mbind, M_bind. by rewrite Hc.
Qed.

Lemma compileLib_throws args w e w' :
  usage_requested args = false ->
  configure (options_of (mri args)) w = (Throw e, w') ->
  compileLib args w = (Throw e, w').
Proof.
  intros Hu Hc. unfold compileLib. rewrite Hu. unfold mbind, M_bind. by rewrite Hc.
Qed.

Lemma copy_blocked_staging w e :
  copy_blocked w = Some e -> staging w = [copyFile hidenGyp realGyp].
Proof.
  unfold copy_blocked, staging. destruct (files w !! hidenGyp) as [c|] eqn:Hh; [|done].
  intros _. by rewrite bool_decide_eq_true_2 by eauto.
Qed.

Lemma staging_quiet w :
  Forall (fun e => ¬ spawns e ∧ ¬ deletes e ∧ ¬ prints e ∧ ¬ pipes e) (staging w).
Proof. unfold staging. case_bool_decide; repeat constructor; simpl; auto. Qed.

(** A dry run prints and stages, and does nothing else. *)
Lemma quiet_dry_launch JOBS dryRun DEFINES INCLUDES LIBRARIES :
  truthy dryRun = true ->
  quiet (fun e => ¬ spawns e ∧ ¬ deletes e) (launch JOBS dryRun DEFINES INCLUDES LIBRARIES).
Proof.
  intros Hdry w. rewrite launch_run.
  assert (Hst : Forall (fun e => ¬ spawns e ∧ ¬ deletes e) (staging w)).
  { eapply Forall_impl; [apply staging_quiet|]. simpl. tauto. }
  destruct (copy_blocked w) as [e|].
  - by exists (staging w).
  - rewrite Hdry. eexists. simpl. rewrite trace_stage.
    split; [done|]. apply Forall_app. split; [done|].
    repeat constructor; simpl; tauto.
Qed.

(** The value of [JOBS]: the [-j] option when truthy, else the [--jobs]
    option when truthy, else max. *)
Lemma select_JOBS_spec (parsed : Argv) :
  select_JOBS parsed =
    if truthy (arg_j parsed) then arg_j parsed
    else if truthy (arg_jobs parsed) then arg_jobs parsed
    else JStr "max".
Proof. unfold select_JOBS. by destruct (truthy (arg_j parsed)), (truthy (arg_jobs parsed)). Qed.


End Effects.

(** ** The build invocation *)

Section Invocation.
Context {node : Runtime}.

(** C3, as the code has it. On a build invocation with the dry-run
    option, compileLib starts no child process and deletes no file,
    whatever happens.  An error of the configuration is thrown as it is.
    Once the configuration is derived the staging still occurs: the hidden
    descriptor is copied to binding.gyp when it exists.  If that copy
    fails its error is thrown and nothing is printed; otherwise compileLib
    logs the command, prints the three export lines and then the command
    line, and returns normally. *)
Theorem dry_run_effects (args : list string) (w : World) :
  truthy (js_or (arg_dryrun (mri args)) (arg_dry_run (mri args))) = true ->
  usage_requested args = false ->
  (∃ evs, trace (compileLib args w).2 = trace w ++ evs
          ∧ Forall (fun e => ¬ spawns e ∧ ¬ deletes e) evs)
  ∧ (∀ e w1, configure (options_of (mri args)) w = (Throw e, w1) ->
             compileLib args w = (Throw e, w1))
  ∧ ∀ DEFINES INCLUDES LIBRARIES w1,
      configure (options_of (mri args)) w = (Ok (DEFINES, INCLUDES, LIBRARIES), w1) ->
      let cmd := command_line (debug_set w1) (select_JOBS (mri args)) in
      match copy_blocked w1 with
      | Some e =>
          compileLib args w = (Throw e, add_events [copyFile hidenGyp realGyp] w1)
      | None =>
          compileLib args w =
            (Ok tt,
             add_events (staging w1 ++ spawning_log cmd
                           :: dry_run_output DEFINES INCLUDES LIBRARIES cmd) (stage w1))
          ∧ (∀ c, files w1 !! hidenGyp = Some c ->
                  staging w1 = [copyFile hidenGyp realGyp]
                  ∧ files (compileLib args w).2 !! realGyp = Some c)
          ∧ (files w1 !! hidenGyp = None ->
                  staging w1 = [] ∧ files (compileLib args w).2 = files w1)
      end.
Proof.
  intros Hdry Hbuild. split; [|split].
  - unfold compileLib. rewrite Hbuild.
    apply quiet_bind.
    + apply quiet_configure. intros [] ?; simpl in *; tauto.
    + intros [[D I] L]. by apply quiet_dry_launch.
  - intros e w1. by apply compileLib_throws.
  - intros D I L w1 Hconf cmd.
    rewrite (compileLib_build _ _ _ _ _ _ Hbuild Hconf), launch_run.
    destruct (copy_blocked w1) as [e|] eqn:Hcopy.
    + by rewrite (copy_blocked_staging _ _ Hcopy).
    + rewrite Hdry. split; [done|]. split.
      * intros c Hc. split.
        -- unfold staging. rewrite Hc. by rewrite bool_decide_eq_true_2 by eauto.
        -- simpl. by apply stage_descriptor.
      * intros Hc. split.
        -- unfold staging. rewrite Hc. by rewrite bool_decide_eq_false_2 by by intros [? ?].
        -- simpl. unfold stage. by rewrite Hc.
Qed.



(** C10, as the code has it. The command line is node-gyp rebuild, the
    debug flag when BINDINGS_DEBUG is set, and the jobs flag with N: the
    string of the value of -j when that is truthy, else the string of the
    value of --jobs when that is truthy, else max.  So a value that is
    given but falsy, such as 0, is passed over; with both options truthy
    -j wins.  When the configuration is derived and the descriptor is
    staged, this command is what a real run starts and what a dry run
    prints. *)
Theorem jobs_flag (args : list string) (w : World)
    (DEFINES INCLUDES LIBRARIES : string) (w1 : World) :
  usage_requested args = false ->
  configure (options_of (mri args)) w = (Ok (DEFINES, INCLUDES, LIBRARIES), w1) ->
  copy_blocked w1 = None ->
  js_safe (arg_j (mri args)) ->
  js_safe (arg_jobs (mri args)) ->
  let parsed := mri args in
  let N := if truthy (arg_j parsed) then toString (arg_j parsed)
           else if truthy (arg_jobs parsed) then toString (arg_jobs parsed)
           else "max" in
  let cmd := "node-gyp rebuild "
               +:+ (if debug_set w1 then " --debug" else "") +:+ " --jobs " +:+ N in
  (compileLib args w).1 = Ok tt
  ∧ if truthy (js_or (arg_dryrun parsed) (arg_dry_run parsed))
    then console_log [PStr cmd] ∈ trace (compileLib args w).2
    else exec cmd cwd ∈ trace (compileLib args w).2.
Proof.
  intros Hbuild Hconf Hcopy _ _ parsed N cmd.
  rewrite (compileLib_build _ _ _ _ _ _ Hbuild Hconf), launch_run, Hcopy.
  split; [done|].
  assert (Hcmd : command_line (debug_set w1) (select_JOBS (mri args)) = cmd).
  { unfold command_line, cmd, N, parsed. rewrite select_JOBS_spec.
    by destruct (truthy (arg_j (mri args))), (truthy (arg_jobs (mri args))). }
  rewrite Hcmd. simpl. destruct (truthy (js_or _ _)).
  - rewrite !elem_of_app. right. unfold dry_run_output.
    rewrite !elem_of_cons. tauto.
  - rewrite !elem_of_app, !elem_of_cons. tauto.
Qed.

End Invocation.

(** ** The sample installation, run *)

Module Runs.
Import Sample.

(** The derivations of section 8 of the specification. *)
Example defines_core_imgproc :
  (getOPENCV4NODEJS_DEFINES (node := posix) [core; imgproc] installed).1
  = Ok ["OPENCV4NODEJS_FOUND_LIBRARY_CORE"; "OPENCV4NODEJS_FOUND_LIBRARY_IMGPROC"].
Proof. reflexivity. Qed.

Example libraries_posix :
  (getOPENCV4NODEJS_LIBRARIES (node := posix) "/usr/local/lib" [core; imgproc] installed).1
  = Ok ["-L/usr/local/lib"; "-lopencv_core"; "-lopencv_imgproc"; "-Wl,-rpath,/usr/local/lib"].
Proof. reflexivity. Qed.

Example libraries_win32 :
  (getOPENCV4NODEJS_LIBRARIES (node := win32) "/usr/local/lib" [core; imgproc] installed).1
  = Ok ["/opt/opencv-build/lib/libopencv_core.so"; "/opt/opencv-build/lib/libopencv_imgproc.so"].
Proof. reflexivity. Qed.

Example no_libraries :
  (compileLib (node := bare) ["build"] installed).1
  = Throw (Error "no OpenCV libraries found in lib dir: /opt/opencv-build/lib").
Proof. vm_compute. reflexivity. Qed.

Example usage_without_build :
  compileLib (node := posix) ["--dry-run"] installed
  = (Ok tt, add_events [console_log [PStr (usage)]] installed).
Proof. reflexivity. Qed.

Example lib_dir_from_environment :
  (getLibDir (node := posix) (env (builder [core] (options_of (mri_of ["build"; "--nobuild"]))))
     overridden).1 = Ok "/custom/lib".
Proof. reflexivity. Qed.

Example lib_dir_on_windows :
  (getLibDir (node := win32) (env (builder [core] (options_of (mri_of ["build"; "--nobuild"]))))
     installed).1
  = Throw (Error "OPENCV_LIB_DIR has to be defined on windows when auto build is disabled").
Proof. reflexivity. Qed.

Example falsy_j_leaves_jobs :
  started (trace (compileLib (node := posix) ["build"; "--jobs"; "4"; "-j"; "0"] installed).2)
  = [("node-gyp rebuild  --jobs 4", "/opt/opencv4nodejs")].
Proof. vm_compute. reflexivity. Qed.


Lemma enumerate_result_witness :
  (enumerate (builder [core; cudaarithm; imgproc] options)
     "/opt/opencv-build/lib" installed).1
  = Ok [core; imgproc].
Proof.
  exact (proj1 (enumerate_result
                  (builder [core; cudaarithm; imgproc] options)
                  "/opt/opencv-build/lib" installed _ _ eq_refl)).
Defined.

(** The scenario of the specification: build, dry run, four jobs. *)
Lemma dry_run_effects_witness :
  (compileLib (node := posix) ["build"; "--dry-run"; "--jobs"; "4"] installed).1 = Ok tt
  ∧ files (compileLib (node := posix) ["build"; "--dry-run"; "--jobs"; "4"] installed).2
      !! "/opt/opencv4nodejs/binding.gyp" = Some "{ 'targets': [] }".
Proof.
  destruct (dry_run_effects (node := posix) ["build"; "--dry-run"; "--jobs"; "4"] installed
              eq_refl eq_refl) as (_ & _ & Hrun).
  assert (∃ D I L w1,
            configure (node := posix)
              (options_of (mri (Runtime := posix) ["build"; "--dry-run"; "--jobs"; "4"]))
              installed = (Ok (D, I, L), w1)
            ∧ files w1 !! hidenGyp (node := posix) = Some "{ 'targets': [] }"
            ∧ copy_blocked (node := posix) w1 = None)
    as (D & I & L & w1 & Hconf & Hhidden & Hcopy).
  { vm_compute. do 4 eexists. split_and!; reflexivity. }
  specialize (Hrun D I L w1 Hconf). simpl in Hrun. rewrite Hcopy in Hrun.
  destruct Hrun as (Hres & Hstaged & _).
  split.
  - by rewrite Hres.
  - by apply Hstaged.
Defined.


Lemma jobs_flag_witness :
  exec "node-gyp rebuild  --jobs 2" "/opt/opencv4nodejs"
  ∈ trace (compileLib (node := posix) ["build"; "--jobs"; "4"; "-j"; "2"] installed).2.
Proof.
  assert (∃ D I L w1,
            configure (node := posix)
              (options_of (mri (Runtime := posix) ["build"; "--jobs"; "4"; "-j"; "2"]))
              installed = (Ok (D, I, L), w1)
            ∧ debug_set w1 = false
            ∧ copy_blocked (node := posix) w1 = None)
    as (D & I & L & w1 & Hconf & Hdebug & Hcopy).
  { vm_compute. do 4 eexists. split_and!; reflexivity. }
  assert (Hj : js_safe (JNum 2)) by (simpl; lia).
  assert (Hjobs : js_safe (JNum 4)) by (simpl; lia).
  destruct (jobs_flag (node := posix) ["build"; "--jobs"; "4"; "-j"; "2"] installed D I L w1
              eq_refl Hconf Hcopy Hj Hjobs) as [_ Hcmd].
  rewrite Hdebug in Hcmd. exact Hcmd.
Defined.

(** C3 as stated fails: the dry-run option is set on a build invocation,
    the builder finds no library file, and compileLib throws: it does not
    return normally and has printed nothing. *)
Lemma dry_run_can_throw :
  truthy (js_or (arg_dryrun (mri_of ["build"; "--dry-run"]))
                (arg_dry_run (mri_of ["build"; "--dry-run"]))) = true
  ∧ (compileLib (node := bare) ["build"; "--dry-run"] installed).1
    = Throw (Error "no OpenCV libraries found in lib dir: /opt/opencv-build/lib")
  ∧ printed (trace (compileLib (node := bare) ["build"; "--dry-run"] installed).2) = [].
Proof. vm_compute. done. Qed.



(** C10 as stated fails: --jobs 0 is given, and the command line has
    --jobs max. *)
Lemma jobs_zero_is_passed_over :
  arg_jobs (mri_of ["build"; "--jobs"; "0"]) = JNum 0
  ∧ arg_j (mri_of ["build"; "--jobs"; "0"]) = JUndefined
  ∧ started (trace (compileLib (node := posix) ["build"; "--jobs"; "0"] installed).2)
    = [("node-gyp rebuild  --jobs max", "/opt/opencv4nodejs")].
Proof. vm_compute. done. Qed.

End Runs.

(** ** The stages of compileLib, one by one *)

Ltac logs :=
  repeat match goal with
  | |- Forall _ (_ ++ _) => apply Forall_app; split
  | |- Forall _ (_ :: _) => constructor; [exact I|]
  | |- Forall _ [] => constructor
  | |- Forall _ (map _ _) => apply List.Forall_map, Forall_true; intros ?; exact I
  | _ => assumption
  end.

Section StageLemmas.
Context {node : Runtime}.

Lemma external_run {A : Type} (f : Ambient -> Result A * Ambient) w r a :
  f (ambient_of w) = (r, a) -> external f w = (r, world_of a (trace w)).
Proof. intros Hf. unfold external. change {| amb_env := _; amb_files := _ |} with (ambient_of w).
  by rewrite Hf. Qed.

Lemma bind_returns {A B : Type} (m : M A) (f : A -> M B) w a w' :
  m w = (Ok a, w') -> (m ≫= f) w = f a w'.
Proof. intros Hm. unfold mbind, M_bind. by rewrite Hm. Qed.

Lemma bind_throws {A B : Type} (m : M A) (f : A -> M B) w e w' :
  m w = (Throw e, w') -> (m ≫= f) w = (Throw e, w').
Proof. intros Hm. unfold mbind, M_bind. by rewrite Hm. Qed.

Lemma getLibDir_run env w :
  ∃ evs, getLibDir env w = (lib_dir env (process_env w), add_events evs w)
         ∧ Forall is_log evs.
Proof.
  unfold getLibDir, lib_dir. destruct (isAutoBuildDisabled env).
  - unfold mbind, M_bind, getenv.
    destruct (nonempty (resolvePath (process_env w !! "OPENCV_LIB_DIR"))).
    + exists []. by rewrite add_events_nil.
    + rewrite getDefaultLibDir_run. eexists. split; [reflexivity|]. by repeat constructor.
  - exists []. rewrite add_events_nil. by destruct (nonempty _).
Qed.

Lemma includes_run env libs w :
  ∃ evs, getOPENCV4NODEJS_INCLUDES env libs w
         = (include_dirs env (process_env w), add_events evs w)
         ∧ Forall is_log evs.
Proof. apply getOPENCV4NODEJS_INCLUDES_run. Qed.

Lemma configure_eq options :
  configure options =
    (builder ← external (new_OpenCVBuilder options);
     log_info "install" ("Using openCV " +:+ pc_green "%s") [opencvVersion (env builder)];;
     libDir ← getLibDir (env builder);
     log_info "install" ("Using lib dir: " +:+ libDir) [];;
     from_directory builder libDir).
Proof. reflexivity. Qed.

Lemma derive_run builder libDir libs w :
  ∃ evs,
    Forall is_log evs
    ∧ derive builder libDir libs w =
        match include_dirs (env builder) (process_env w) with
        | Ok includes =>
            (Ok (join ";" (map define_of libs), join ";" includes,
                 join ";" (link_args libDir libs)),
             exported (join ";" (map define_of libs)) (join ";" includes)
                      (join ";" (link_args libDir libs)) (add_events evs w))
        | Throw e => (Throw e, add_events evs w)
        end.
Proof.
  unfold derive.
  rewrite (bind_returns _ _ w tt (add_events
             [npmlog level_info "install" (EOL +:+ "Found the following libs:") []] w))
    by reflexivity.
  unfold log_info at 1.
  erewrite bind_returns by apply forEach_emit.
  erewrite bind_returns by apply getOPENCV4NODEJS_DEFINES_run.
  rewrite !add_events_app.
  match goal with |- context [add_events ?evs w] => set (evs1 := evs) end.
  destruct (includes_run (env builder) libs (add_events evs1 w)) as (evs2 & Hinc & Hlog2).
  change (process_env (add_events evs1 w)) with (process_env w) in Hinc.
  destruct (include_dirs (env builder) (process_env w)) as [includes|e].
  - erewrite bind_returns by apply Hinc.
    erewrite bind_returns by apply getOPENCV4NODEJS_LIBRARIES_run.
    rewrite !add_events_app.
    eexists. split; [|reflexivity]. subst evs1. logs.
  - erewrite bind_throws by apply Hinc.
    rewrite !add_events_app. eexists. split; [|reflexivity]. subst evs1. logs.
Qed.

Lemma configure_prefix options w builder a1 libDir :
  new_OpenCVBuilder options (ambient_of w) = (Ok builder, a1) ->
  (getLibDir (env builder) (world_of a1 [])).1 = Ok libDir ->
  ∃ evs, Forall is_log evs
         ∧ configure options w = from_directory builder libDir (world_of a1 (trace w ++ evs)).
Proof.
  intros Hnew Hdir. rewrite configure_eq.
  erewrite bind_returns by (apply external_run, Hnew).
  erewrite bind_returns by reflexivity.
  set (w0 := add_events _ (world_of a1 (trace w))).
  destruct (getLibDir_run (env builder) w0) as (evs & Hrun & Hlog).
  destruct (getLibDir_run (env builder) (world_of a1 [])) as (evs' & Hrun' & _).
  rewrite Hrun' in Hdir. simpl in Hdir.
  change (process_env w0) with (amb_env a1) in Hrun. rewrite Hdir in Hrun.
  erewrite bind_returns by apply Hrun.
  erewrite bind_returns by reflexivity.
  subst w0. unfold add_events, world_of. simpl. rewrite <- !app_assoc.
  eexists. split; [|reflexivity]. logs.
Qed.

Lemma from_directory_present builder libDir w :
  is_Some (files w !! libDir) ->
  from_directory builder libDir w
  = (enumerate builder libDir ≫= derive builder libDir) w.
Proof.
  intros Hdir. unfold from_directory.
  unfold mbind at 1, M_bind at 1, existsSync at 1. rewrite bool_decide_eq_true_2 by done.
  simpl. unfold mbind at 1, M_bind at 1, mret at 1, M_ret at 1.
  unfold mbind at 1, M_bind at 1, existsSync at 1. rewrite bool_decide_eq_true_2 by done.
  simpl. by unfold mbind at 1, M_bind at 1, mret at 1, M_ret at 1.
Qed.

Lemma from_directory_absent builder libDir w r a2 :
  files w !! libDir = None ->
  install builder (ambient_of w) = (r, a2) ->
  (r = Ok tt -> amb_files a2 !! libDir = None) ->
  from_directory builder libDir w =
    (Throw match r with
           | Throw e => e
           | Ok _ => Error ("library dir does not exist: " +:+ libDir)
           end,
     world_of a2 (trace w)).
Proof.
  intros Hdir Hinst Hstill. unfold from_directory.
  unfold mbind at 1, M_bind at 1, existsSync at 1.
  rewrite bool_decide_eq_false_2 by (rewrite Hdir; by intros [? ?]).
  simpl. unfold mbind at 1, M_bind at 1. rewrite (external_run _ _ _ _ Hinst).
  destruct r as [[]|e]; [|done].
  unfold mbind at 1, M_bind at 1, existsSync at 1. simpl.
  rewrite bool_decide_eq_false_2 by (rewrite Hstill by done; by intros [? ?]).
  done.
Qed.

Lemma from_directory_created builder libDir w a2 :
  files w !! libDir = None ->
  install builder (ambient_of w) = (Ok tt, a2) ->
  is_Some (amb_files a2 !! libDir) ->
  from_directory builder libDir w
  = (enumerate builder libDir ≫= derive builder libDir) (world_of a2 (trace w)).
Proof.
  intros Hdir Hinst Hnow. unfold from_directory.
  unfold mbind at 1, M_bind at 1, existsSync at 1.
  rewrite bool_decide_eq_false_2 by (rewrite Hdir; by intros [? ?]).
  simpl. unfold mbind at 1, M_bind at 1. rewrite (external_run _ _ _ _ Hinst).
  unfold mbind at 1, M_bind at 1, existsSync at 1. simpl.
  rewrite bool_decide_eq_true_2 by done.
  simpl. by unfold mbind at 1, M_bind at 1, mret at 1, M_ret at 1.
Qed.

Lemma ensures_bind {A B : Type} (Q : B -> World -> Prop) (m : M A) (f : A -> M B) :
  (∀ a, ensures Q (f a)) -> ensures Q (m ≫= f).
Proof.
  intros Hf w b w' Hrun. unfold mbind, M_bind in Hrun.
  destruct (m w) as [[a|e] w1]; [by eapply Hf | done].
Qed.

Lemma ensures_derive builder libDir libs : ensures is_exported (derive builder libDir libs).
Proof.
  intros w r w' Hrun. destruct (derive_run builder libDir libs w) as (evs & _ & Heq).
  rewrite Heq in Hrun. destruct (include_dirs _ _) as [includes|e]; [|done].
  injection Hrun as <- <-. unfold is_exported, exported. simpl.
  split; [|split].
  - by rewrite !lookup_insert_ne, lookup_insert_eq by done.
  - by rewrite lookup_insert_ne, lookup_insert_eq by done.
  - by rewrite lookup_insert_eq.
Qed.

Lemma ensures_configure options : ensures is_exported (configure options).
Proof.
  rewrite configure_eq.
  do 4 (apply ensures_bind; intros ?). unfold from_directory.
  do 5 (apply ensures_bind; intros ?). apply ensures_derive.
Qed.

End StageLemmas.

(** ** Outcomes of the configuration *)

Section Outcomes.
Context {node : Runtime}.

Lemma nonempty_spec (s : string) : nonempty s = true ↔ s ≠ "".
Proof.
  unfold nonempty. rewrite negb_true_iff. split.
  - intros Hs ->. by rewrite String.eqb_refl in Hs.
  - apply String.eqb_neq.
Qed.

Lemma from_directory_ready builder libDir a1 a2 tr :
  directory_ready builder libDir a1 a2 ->
  from_directory builder libDir (world_of a1 tr)
  = (enumerate builder libDir ≫= derive builder libDir) (world_of a2 tr).
Proof.
  intros [[Hdir ->]|(Hdir & Hinst & Hnow)].
  - by apply from_directory_present.
  - destruct a1 as [penv fs]. by apply (from_directory_created _ _ (world_of _ tr)).
Qed.

(** X1. Without the build token, or with a truthy help or h option,
    compileLib prints the usage line and returns: the environment and the
    file system are as before, nothing else is printed or logged, and the
    builder is not made. *)
Theorem usage_only (args : list string) (w : World) :
  "build" ∉ args ∨ truthy (arg_help (mri args)) = true ∨ truthy (arg_h (mri args)) = true ->
  compileLib args w = (Ok tt, add_events [console_log [PStr usage]] w).
Proof.
  intros Hu. apply compileLib_usage. unfold usage_requested.
  destruct Hu as [Hu|[Hu|Hu]].
  - rewrite (bool_decide_eq_false_2 _ Hu). simpl. by rewrite !orb_true_r.
  - by rewrite Hu.
  - rewrite Hu. by rewrite orb_true_r.
Qed.


Lemma piping_pipes cmd : Forall pipes (piping cmd).
Proof.
  unfold piping. destruct (stdout _), (stderr _); by repeat constructor.
Qed.

(** X3. compileLib itself never deletes a file, and it starts at most
    one child.  When it starts one, the child runs in the directory above
    the script, and all that compileLib does afterwards is to pipe the
    streams of that child. *)
Theorem at_most_one_child (args : list string) (w : World) :
  ∃ evs,
    trace (compileLib args w).2 = trace w ++ evs
    ∧ Forall (fun e => ¬ deletes e) evs
    ∧ (Forall (fun e => ¬ spawns e ∧ ¬ pipes e) evs
       ∨ ∃ pre cmd,
           evs = pre ++ exec cmd cwd :: piping cmd
           ∧ Forall (fun e => ¬ spawns e ∧ ¬ pipes e) pre).
Proof.
  destruct (usage_requested args) eqn:Hu.
  - rewrite compileLib_usage by done. eexists. split; [reflexivity|].
    split; [|left]; repeat constructor; simpl; auto.
  - destruct (quiet_configure is_log (options_of (mri args)) (fun _ He => He) w)
      as (evs & Htr & Hlog).
    assert (Hs : Forall (fun e => ¬ spawns e ∧ ¬ pipes e) evs)
      by (eapply Forall_impl; [apply Hlog|intros [] ?; simpl in *; tauto]).
    assert (Hd : Forall (fun e => ¬ deletes e) evs)
      by (eapply Forall_impl; [apply Hlog|intros [] ?; simpl in *; tauto]).
    destruct (configure (options_of (mri args)) w) as [[[[D I] L]|e'] w1] eqn:Hc.
    + rewrite (compileLib_build _ _ _ _ _ _ Hu Hc), launch_run. simpl in *.
      assert (Hst : Forall (fun e => ¬ spawns e ∧ ¬ pipes e) (staging w1)).
      { eapply Forall_impl; [apply staging_quiet|]. simpl. tauto. }
      assert (Hstd : Forall (fun e => ¬ deletes e) (staging w1)).
      { eapply Forall_impl; [apply staging_quiet|]. simpl. tauto. }
      destruct (copy_blocked w1) as [e''|].
      * exists (evs ++ staging w1). simpl. rewrite Htr, app_assoc.
        split; [done|]. split; [|left]; by apply Forall_app.
      * simpl. rewrite trace_stage, Htr, <- app_assoc.
        eexists. split; [reflexivity|]. unfold spawning_log, dry_run_output.
        destruct (truthy (js_or _ _)).
        -- split; [|left]; rewrite !Forall_app; split_and!; try done;
             repeat constructor; simpl; tauto.
        -- split.
           ++ rewrite !Forall_app; split_and!; try done.
              constructor; [simpl; tauto|]. constructor; [simpl; tauto|].
              eapply Forall_impl; [apply piping_pipes|]. intros [] ?; simpl in *; tauto.
           ++ right. eexists (evs ++ staging w1 ++ [_]), _. split.
              ** by rewrite <- !app_assoc.
              ** rewrite !Forall_app; split_and!; try done.
                 repeat constructor; simpl; tauto.
    + rewrite (compileLib_throws _ _ _ _ Hu Hc). simpl in *. exists evs. tauto.
Qed.

Lemma process_env_stage w : process_env (stage w) = process_env w.
Proof. unfold stage. by destruct (files w !! hidenGyp). Qed.

(** X4. When a build invocation returns normally, the three derived
    values are in the environment under their names, and a dry run has
    printed exactly these values in its export lines. *)
Theorem exports_on_success (args : list string) (w : World) :
  usage_requested args = false ->
  (compileLib args w).1 = Ok tt ->
  ∃ DEFINES INCLUDES LIBRARIES : string,
    process_env (compileLib args w).2 !! "OPENCV4NODEJS_DEFINES" = Some DEFINES
    ∧ process_env (compileLib args w).2 !! "OPENCV4NODEJS_INCLUDES" = Some INCLUDES
    ∧ process_env (compileLib args w).2 !! "OPENCV4NODEJS_LIBRARIES" = Some LIBRARIES
    ∧ (truthy (js_or (arg_dryrun (mri args)) (arg_dry_run (mri args))) = true ->
       console_log [PStr ("export OPENCV4NODEJS_DEFINES=" +:+ dquote +:+ DEFINES +:+ dquote)]
         ∈ trace (compileLib args w).2
       ∧ console_log [PStr ("export OPENCV4NODEJS_INCLUDES=" +:+ dquote +:+ INCLUDES +:+ dquote)]
         ∈ trace (compileLib args w).2
       ∧ console_log [PStr ("export OPENCV4NODEJS_LIBRARIES=" +:+ dquote +:+ LIBRARIES +:+ dquote)]
         ∈ trace (compileLib args w).2).
Proof.
  intros Hu Hok.
  destruct (configure (options_of (mri args)) w) as [[[[D I] L]|e'] w1] eqn:Hc.
  - destruct (ensures_configure _ _ _ _ Hc) as (HD & HI & HL). simpl in *.
    rewrite (compileLib_build _ _ _ _ _ _ Hu Hc), launch_run in Hok |- *.
    destruct (copy_blocked w1); [done|].
    exists D, I, L. simpl. rewrite process_env_stage.
    split_and!; try done. intros ->. unfold dry_run_output.
    rewrite !elem_of_app, !elem_of_cons. tauto.
  - by rewrite (compileLib_throws _ _ _ _ Hu Hc) in Hok.
Qed.

(** X5. When the library directory is missing after the builder is
    made, compileLib runs the install step.  If that step fails,
    compileLib throws its error; if it succeeds and the directory is still
    missing, compileLib throws the error that the library directory does
    not exist.  In both cases the world is as the install step left it,
    with log lines only. *)
Theorem missing_directory (args : list string) (w : World)
    (builder : OpenCVBuilder) (a1 a2 : Ambient) (libDir : string) (r : Result unit) :
  usage_requested args = false ->
  new_OpenCVBuilder (options_of (mri args)) (ambient_of w) = (Ok builder, a1) ->
  (getLibDir (env builder) (world_of a1 [])).1 = Ok libDir ->
  amb_files a1 !! libDir = None ->
  install builder a1 = (r, a2) ->
  (r = Ok tt -> amb_files a2 !! libDir = None) ->
  ∃ evs,
    compileLib args w =
      (Throw match r with
             | Throw e => e
             | Ok _ => Error ("library dir does not exist: " +:+ libDir)
             end,
       world_of a2 (trace w ++ evs))
    ∧ Forall is_log evs.
Proof.
  intros Hu Hnew Hdir Hmiss Hinst Hstill.
  destruct (configure_prefix _ _ _ _ _ Hnew Hdir) as (evs & Hlog & Hc).
  exists evs. split; [|done]. apply compileLib_throws; [done|]. rewrite Hc.
  destruct a1 as [penv fs].
  by rewrite (from_directory_absent _ _ (world_of _ _) r a2).
Qed.

(** X6. When the library directory is there, with or without the help
    of the install step, a failure of the listing of the builder is the
    failure of compileLib.  In particular the install step is not run
    when the directory was there from the start. *)
Theorem listing_failure (args : list string) (w : World)
    (builder : OpenCVBuilder) (a1 a2 a3 : Ambient) (libDir : string) (e : JsError) :
  usage_requested args = false ->
  new_OpenCVBuilder (options_of (mri args)) (ambient_of w) = (Ok builder, a1) ->
  (getLibDir (env builder) (world_of a1 [])).1 = Ok libDir ->
  directory_ready builder libDir a1 a2 ->
  getLibs builder a2 = (Throw e, a3) ->
  ∃ evs, compileLib args w = (Throw e, world_of a3 (trace w ++ evs)) ∧ Forall is_log evs.
Proof.
  intros Hu Hnew Hdir Hready Hlibs.
  destruct (configure_prefix _ _ _ _ _ Hnew Hdir) as (evs & Hlog & Hc).
  exists evs. split; [|done]. apply compileLib_throws; [done|].
  rewrite Hc, (from_directory_ready _ _ _ _ _ Hready).
  apply bind_throws. unfold enumerate. apply bind_throws.
  destruct a2 as [penv fs]. by apply (external_run _ (world_of _ _)).
Qed.

(** X7. When no module of the listing has a library file, compileLib
    throws the error about no libraries found, and it has exported
    nothing: the environment is the one the listing left. *)
Theorem nothing_found (args : list string) (w : World)
    (builder : OpenCVBuilder) (a1 a2 a3 : Ambient) (libDir : string)
    (libsInDir : list OpencvModule) :
  usage_requested args = false ->
  new_OpenCVBuilder (options_of (mri args)) (ambient_of w) = (Ok builder, a1) ->
  (getLibDir (env builder) (world_of a1 [])).1 = Ok libDir ->
  directory_ready builder libDir a1 a2 ->
  getLibs builder a2 = (Ok libsInDir, a3) ->
  Forall (fun lib => libPath lib = None ∨ libPath lib = Some "") libsInDir ->
  ∃ evs,
    compileLib args w =
      (Throw (Error ("no OpenCV libraries found in lib dir: " +:+ libDir)),
       world_of a3 (trace w ++ evs))
    ∧ Forall is_log evs.
Proof.
  intros Hu Hnew Hdir Hready Hlibs Hnone.
  destruct (configure_prefix _ _ _ _ _ Hnew Hdir) as (evs & Hlog & Hc).
  exists evs. split; [|done]. apply compileLib_throws; [done|].
  rewrite Hc, (from_directory_ready _ _ _ _ _ Hready).
  apply bind_throws. destruct a2 as [penv fs].
  rewrite (enumerate_run builder libDir
             (world_of {| amb_env := penv; amb_files := fs |} (trace w ++ evs)) _ _ Hlibs).
  assert (Hempty : filter (fun lib => found lib) libsInDir = []).
  { clear Hlibs. induction Hnone as [|lib l Hlib _ IH]; [done|].
    rewrite filter_cons_False; [done|].
    unfold found. intros Hf. by destruct Hlib as [Hl|Hl]; rewrite Hl in Hf. }
  by rewrite Hempty.
Qed.

(** X8. The configuration succeeds when the builder is made, getLibDir
    returns a directory that is there for the listing, the listing has a
    module with a library file and the includes are derived; it returns
    the three derivations over the modules found, each joined with a
    semicolon, and exports them. *)
Theorem configuration_values (args : list string) (w : World)
    (builder : OpenCVBuilder) (a1 a2 a3 : Ambient) (libDir : string)
    (libsInDir : list OpencvModule) (includes : list string) :
  new_OpenCVBuilder (options_of (mri args)) (ambient_of w) = (Ok builder, a1) ->
  (getLibDir (env builder) (world_of a1 [])).1 = Ok libDir ->
  directory_ready builder libDir a1 a2 ->
  getLibs builder a2 = (Ok libsInDir, a3) ->
  filter (fun lib => found lib) libsInDir ≠ [] ->
  (getOPENCV4NODEJS_INCLUDES (env builder) [] (world_of a3 [])).1 = Ok includes ->
  let libsFoundInDir := filter (fun lib => found lib) libsInDir in
  let DEFINES :=
    join ";" (map (fun lib => "OPENCV4NODEJS_FOUND_LIBRARY_" +:+ toUpperCase (opencvModule lib))
                  libsFoundInDir) in
  let INCLUDES := join ";" includes in
  let LIBRARIES :=
    join ";" (if isWin then map (fun lib => resolvePath (libPath lib)) libsFoundInDir
              else ["-L" +:+ libDir]
                     ++ map (fun lib => "-lopencv_" +:+ opencvModule lib) libsFoundInDir
                     ++ ["-Wl,-rpath," +:+ libDir]) in
  ∃ evs,
    configure (options_of (mri args)) w =
      (Ok (DEFINES, INCLUDES, LIBRARIES),
       exported DEFINES INCLUDES LIBRARIES (world_of a3 (trace w ++ evs)))
    ∧ Forall is_log evs.
Proof.
  intros Hnew Hdir Hready Hlibs Hsome Hinc libsFoundInDir DEFINES INCLUDES LIBRARIES.
  destruct (configure_prefix _ _ _ _ _ Hnew Hdir) as (evs & Hlog & Hc).
  rewrite Hc, (from_directory_ready _ _ _ _ _ Hready).
  destruct a2 as [penv fs].
  erewrite bind_returns; last first.
  { rewrite (enumerate_run builder libDir
               (world_of {| amb_env := penv; amb_files := fs |} (trace w ++ evs)) _ _ Hlibs).
    by rewrite decide_False by done. }
  simpl.
  match goal with |- context [derive _ _ _ ?w0] => set (w3 := w0) end.
  destruct (derive_run builder libDir libsFoundInDir w3) as (evs' & Hlog' & Hder).
  destruct (includes_run (env builder) [] (world_of a3 [])) as (evs'' & Hrun & _).
  rewrite Hrun in Hinc. simpl in Hinc.
  change (process_env w3) with (amb_env a3) in Hder. rewrite Hinc in Hder.
  exists (evs ++ evs'). split; [|by apply Forall_app].
  fold libsFoundInDir. rewrite Hder. unfold add_events, w3, world_of, exported. simpl.
  by rewrite app_assoc.
Qed.

End Outcomes.

(** ** The derivations and the descriptor, again *)

Lemma started_app tr1 tr2 : started (tr1 ++ tr2) = started tr1 ++ started tr2.
Proof.
  induction tr1 as [|e tr1 IH]; [done|]. destruct e; simpl; by rewrite ?IH.
Qed.

Section Derivations.
Context {node : Runtime}.

Lemma started_staging w : started (staging w) = [].
Proof. unfold staging. by case_bool_decide. Qed.

Lemma started_piping cmd : started (piping cmd) = [].
Proof. unfold piping. by destruct (stdout _), (stderr _). Qed.

(** X9. A directory that getLibDir returns is never the empty string:
    an override or a builder directory that resolves to nothing is not
    returned. *)
Theorem getLibDir_nonempty (env : OpenCVBuildEnv) (w : World) (dir : string) :
  (getLibDir env w).1 = Ok dir -> dir ≠ "".
Proof.
  destruct (getLibDir_run env w) as (evs & -> & _). simpl. unfold lib_dir.
  destruct (isAutoBuildDisabled env).
  - destruct (nonempty (resolvePath (process_env w !! "OPENCV_LIB_DIR"))) eqn:Hn.
    + intros [= <-]. by apply nonempty_spec.
    + destruct isWin; [done|]. by intros [= <-].
  - destruct (nonempty (resolvePath (opencvLibDir env))) eqn:Hn; [|done].
    intros [= <-]. by apply nonempty_spec.
Qed.

(** X10. With auto build disabled, the includes that are returned are
    one or two directories, none of them empty.  (With auto build enabled
    there is no such check: a directory that the builder lacks comes out
    as the empty string.) *)
Theorem includes_nonempty (env : OpenCVBuildEnv) (libs : list OpencvModule) (w : World)
    (includes : list string) :
  isAutoBuildDisabled env = true ->
  (getOPENCV4NODEJS_INCLUDES env libs w).1 = Ok includes ->
  (length includes = 1 ∨ length includes = 2) ∧ Forall (fun inc => inc ≠ "") includes.
Proof.
  intros Hdis. destruct (includes_run env libs w) as (evs & -> & _). simpl.
  unfold include_dirs. rewrite Hdis.
  destruct (truthy_opt _ && nonempty _) eqn:Hset.
  - apply andb_true_iff in Hset as [_ Hn]. intros [= <-].
    split; [by left|]. constructor; [by apply nonempty_spec|done].
  - destruct isWin; [done|]. intros [= <-]. split; [by right|]. by repeat constructor.
Qed.

(** X11. getLibDir and the three derivations do not touch the
    environment or the file system: all they do besides computing their
    value is logging. *)
Theorem derivations_only_log (env : OpenCVBuildEnv) (libDir : string)
    (libs : list OpencvModule) (w : World) :
  (∃ evs, (getLibDir env w).2 = add_events evs w ∧ Forall is_log evs)
  ∧ (∃ evs, (getOPENCV4NODEJS_DEFINES libs w).2 = add_events evs w ∧ Forall is_log evs)
  ∧ (∃ evs, (getOPENCV4NODEJS_INCLUDES env libs w).2 = add_events evs w ∧ Forall is_log evs)
  ∧ (∃ evs, (getOPENCV4NODEJS_LIBRARIES libDir libs w).2 = add_events evs w
            ∧ Forall is_log evs).
Proof.
  split_and!.
  - destruct (getLibDir_run env w) as (evs & -> & Hlog). eauto.
  - rewrite getOPENCV4NODEJS_DEFINES_run. eexists. split; [reflexivity|]. logs.
  - destruct (includes_run env libs w) as (evs & -> & Hlog). eauto.
  - rewrite getOPENCV4NODEJS_LIBRARIES_run. eexists. split; [reflexivity|]. logs.
Qed.

(** X12. What the derivations do not look at: the includes do not
    depend on the modules; on Windows the link arguments do not depend on
    the library directory; elsewhere they do not depend on the library
    files of the modules, only on their names. *)
Theorem ignored_inputs (env : OpenCVBuildEnv) (libDir libDir' : string)
    (libs libs' : list OpencvModule) (w : World) :
  (getOPENCV4NODEJS_INCLUDES env libs w).1 = (getOPENCV4NODEJS_INCLUDES env libs' w).1
  ∧ if isWin then
      (getOPENCV4NODEJS_LIBRARIES libDir libs w).1
      = (getOPENCV4NODEJS_LIBRARIES libDir' libs w).1
    else
      map opencvModule libs = map opencvModule libs' ->
      (getOPENCV4NODEJS_LIBRARIES libDir libs w).1
      = (getOPENCV4NODEJS_LIBRARIES libDir libs' w).1.
Proof.
  split.
  - destruct (includes_run env libs w) as (evs & -> & _).
    by destruct (includes_run env libs' w) as (evs' & -> & _).
  - rewrite !getOPENCV4NODEJS_LIBRARIES_run. unfold link_args. destruct isWin; [done|].
    intros Hnames. simpl. do 3 f_equal.
    rewrite <- (map_map opencvModule (fun m => "-lopencv_" +:+ m) libs).
    rewrite <- (map_map opencvModule (fun m => "-lopencv_" +:+ m) libs').
    by rewrite Hnames.
Qed.


(** X14. A dry run shows the real thing: for the same JOBS value and the
    same world, a dry run and a real run have the same outcome (both
    return, or both throw the error of the staging) and leave the same
    environment and the same files; and when they return, the command
    line that the dry run prints is the one that the real run starts, in
    the directory above the script. *)
Theorem dry_run_shows_command (JOBS dryRun dryRun' : JsVal)
    (DEFINES INCLUDES LIBRARIES : string) (w : World) :
  truthy dryRun = true ->
  truthy dryRun' = false ->
  (launch JOBS dryRun DEFINES INCLUDES LIBRARIES w).1
  = (launch JOBS dryRun' DEFINES INCLUDES LIBRARIES w).1
  ∧ files (launch JOBS dryRun DEFINES INCLUDES LIBRARIES w).2
    = files (launch JOBS dryRun' DEFINES INCLUDES LIBRARIES w).2
  ∧ process_env (launch JOBS dryRun DEFINES INCLUDES LIBRARIES w).2
    = process_env (launch JOBS dryRun' DEFINES INCLUDES LIBRARIES w).2
  ∧ ((launch JOBS dryRun DEFINES INCLUDES LIBRARIES w).1 = Ok tt ->
     ∃ cmd,
       started (trace (launch JOBS dryRun' DEFINES INCLUDES LIBRARIES w).2)
       = started (trace w) ++ [(cmd, cwd)]
       ∧ console_log [PStr cmd] ∈ trace (launch JOBS dryRun DEFINES INCLUDES LIBRARIES w).2).
Proof.
  intros Hdry Hreal. rewrite !launch_run.
  destruct (copy_blocked w) as [e|]; [done|].
  rewrite Hdry, Hreal. simpl. split_and!; try done.
  intros _. exists (command_line (debug_set w) JOBS). split.
  - rewrite trace_stage, !started_app, started_staging.
    unfold spawning_log. simpl. by rewrite started_piping.
  - unfold dry_run_output. rewrite !elem_of_app, !elem_of_cons. tauto.
Qed.

(** X15. The value of JOBS is never a falsy value: it is never
    undefined, false, 0, the empty string or another falsy value such as
    null.  (A truthy value is passed on as it is, also the string false.) *)
Theorem JOBS_never_falsy (parsed : Argv) :
  truthy (select_JOBS parsed) = true
  ∧ select_JOBS parsed ≠ JUndefined
  ∧ select_JOBS parsed ≠ JBool false
  ∧ select_JOBS parsed ≠ JNum 0
  ∧ select_JOBS parsed ≠ JStr ""
  ∧ ∀ text, select_JOBS parsed ≠ JOther false text.
Proof.
  assert (Ht : truthy (select_JOBS parsed) = true).
  { rewrite select_JOBS_spec.
    destruct (truthy (arg_j parsed)) eqn:Hj; [done|].
    by destruct (truthy (arg_jobs parsed)) eqn:Hjobs. }
  split; [done|]. split_and!; try (intros Heq; by rewrite Heq in Ht).
  intros text Heq. by rewrite Heq in Ht.
Qed.


(** X17. Where the directories come from.  With auto build disabled the
    library directory and the includes do not depend on the directories
    of the builder; with auto build enabled they do not depend on the
    environment, the file system or what was logged before. *)
Theorem directory_sources (env env' : OpenCVBuildEnv) (libs : list OpencvModule)
    (w w' : World) :
  (isAutoBuildDisabled env = true -> isAutoBuildDisabled env' = true ->
   (getLibDir env w).1 = (getLibDir env' w).1
   ∧ (getOPENCV4NODEJS_INCLUDES env libs w).1 = (getOPENCV4NODEJS_INCLUDES env' libs w).1)
  ∧ (isAutoBuildDisabled env = false ->
     (getLibDir env w).1 = (getLibDir env w').1
     ∧ (getOPENCV4NODEJS_INCLUDES env libs w).1 = (getOPENCV4NODEJS_INCLUDES env libs w').1).
Proof.
  split.
  - intros Hd Hd'.
    destruct (getLibDir_run env w) as (? & -> & _).
    destruct (getLibDir_run env' w) as (? & -> & _).
    destruct (includes_run env libs w) as (? & -> & _).
    destruct (includes_run env' libs w) as (? & -> & _).
    simpl. unfold lib_dir, include_dirs. by rewrite Hd, Hd'.
  - intros Hd.
    destruct (getLibDir_run env w) as (? & -> & _).
    destruct (getLibDir_run env w') as (? & -> & _).
    destruct (includes_run env libs w) as (? & -> & _).
    destruct (includes_run env libs w') as (? & -> & _).
    simpl. unfold lib_dir, include_dirs. by rewrite Hd.
Qed.

Lemma upper_ascii_not_lower (c : ascii) : is_lower (upper_ascii c) = false.
Proof.
  unfold upper_ascii, is_lower.
  destruct ((97 <=? Ascii.nat_of_ascii c)%nat && (Ascii.nat_of_ascii c <=? 122)%nat) eqn:Hc;
    [|done].
  apply andb_true_iff in Hc as [H1 H2].
  apply Nat.leb_le in H1, H2.
  rewrite Ascii.nat_ascii_embedding by lia.
  apply andb_false_iff. left. apply Nat.leb_gt. lia.
Qed.

Lemma toUpperCase_no_lower (s : string) : no_lower (toUpperCase s) = true.
Proof.
  induction s as [|c s IH]; [done|]. simpl.
  by rewrite upper_ascii_not_lower, IH.
Qed.

Lemma no_lower_append (s1 s2 : string) :
  no_lower (s1 +:+ s2) = no_lower s1 && no_lower s2.
Proof.
  induction s1 as [|c s1 IH]; [done|]. simpl. by rewrite IH, andb_assoc.
Qed.

(** X18. No define contains a lower-case ASCII letter, whatever the
    names of the modules. *)
Theorem defines_have_no_lower_case (libs : list OpencvModule) (w : World)
    (defines : list string) :
  (getOPENCV4NODEJS_DEFINES libs w).1 = Ok defines ->
  Forall (fun def => no_lower def = true) defines.
Proof.
  rewrite getOPENCV4NODEJS_DEFINES_run. intros [= <-].
  apply List.Forall_map, Forall_true. intros lib. unfold define_of.
  by rewrite no_lower_append, toUpperCase_no_lower.
Qed.

End Derivations.

(** ** The failing installations, run *)

Module Checks.
Import Sample Faults.

Example install_makes_directory :
  (compileLib (node := working) ["build"] fresh).1 = Ok tt
  ∧ started (trace (compileLib (node := working) ["build"] fresh).2)
    = [("node-gyp rebuild  --jobs max", "/opt/opencv4nodejs")].
Proof. vm_compute. done. Qed.

Example blocked_copy_in_a_real_run :
  compileLib (node := blocked) ["build"] installed
  = (Throw EISDIR,
     add_events [copyFile "/opt/opencv4nodejs/_binding.gyp" "/opt/opencv4nodejs/binding.gyp"]
       (configure (node := blocked) (options_of (mri_of ["build"])) installed).2).
Proof. vm_compute. done. Qed.

Example blocked_copy_in_a_dry_run :
  (compileLib (node := blocked) ["build"; "--dry-run"] installed).1 = Throw EISDIR
  ∧ printed (trace (compileLib (node := blocked) ["build"; "--dry-run"] installed).2) = []
  ∧ process_env (compileLib (node := blocked) ["build"; "--dry-run"] installed).2
      !! "OPENCV4NODEJS_DEFINES"
    = Some "OPENCV4NODEJS_FOUND_LIBRARY_CORE;OPENCV4NODEJS_FOUND_LIBRARY_IMGPROC".
Proof. vm_compute. done. Qed.

Example constructor_rejects :
  compileLib (node := rejected) ["build"] fresh = (Throw version_error, fresh).
Proof. vm_compute. done. Qed.

Example empty_includes_when_builder_has_none :
  (getOPENCV4NODEJS_INCLUDES (node := posix) (env (bare_builder options)) [core] installed).1
  = Ok [""; ""].
Proof. reflexivity. Qed.

Lemma usage_only_witness :
  compileLib (node := posix) ["--dry-run"] installed
  = (Ok tt, add_events [console_log [PStr usage]] installed).
Proof.
  apply (usage_only (node := posix)). left.
  apply not_elem_of_cons. split; [done|]. apply not_elem_of_nil.
Defined.


Lemma exports_on_success_witness :
  ∃ DEFINES,
    process_env (compileLib (node := posix) ["build"; "--dry-run"] installed).2
      !! "OPENCV4NODEJS_DEFINES" = Some DEFINES.
Proof.
  assert (Hok : (compileLib (node := posix) ["build"; "--dry-run"] installed).1 = Ok tt).
  { vm_compute. reflexivity. }
  destruct (exports_on_success (node := posix) ["build"; "--dry-run"] installed eq_refl Hok)
    as (D & _ & _ & HD & _).
  by exists D.
Defined.

Lemma missing_directory_witness :
  (compileLib (node := offline) ["build"] fresh).1 = Throw offline_error.
Proof.
  assert (Hstill : Throw offline_error = Ok tt ->
                   amb_files (ambient_of fresh) !! lib_directory = None) by done.
  destruct (missing_directory (node := offline) ["build"] fresh
              (offline_builder (options_of (mri_of ["build"])))
              (ambient_of fresh) (ambient_of fresh) lib_directory (Throw offline_error)
              eq_refl eq_refl eq_refl eq_refl eq_refl Hstill)
    as (evs & Hrun & _).
  by rewrite Hrun.
Defined.

Lemma listing_failure_witness :
  (compileLib (node := unreadable) ["build"] installed).1 = Throw unreadable_error.
Proof.
  assert (Hready : directory_ready (unreadable_builder (options_of (mri_of ["build"])))
                     lib_directory (ambient_of installed) (ambient_of installed)).
  { left. split; [|reflexivity]. eexists. reflexivity. }
  destruct (listing_failure (node := unreadable) ["build"] installed
              (unreadable_builder (options_of (mri_of ["build"])))
              (ambient_of installed) (ambient_of installed) (ambient_of installed)
              lib_directory unreadable_error eq_refl eq_refl eq_refl Hready eq_refl)
    as (evs & Hrun & _).
  by rewrite Hrun.
Defined.

Lemma nothing_found_witness :
  (compileLib (node := bare) ["build"] installed).1
  = Throw (Error "no OpenCV libraries found in lib dir: /opt/opencv-build/lib").
Proof.
  assert (Hready : directory_ready (builder [cudaarithm] (options_of (mri_of ["build"])))
                     lib_directory (ambient_of installed) (ambient_of installed)).
  { left. split; [|reflexivity]. eexists. reflexivity. }
  assert (Hnone : Forall (fun lib => libPath lib = None ∨ libPath lib = Some "") [cudaarithm]).
  { constructor; [by left|constructor]. }
  destruct (nothing_found (node := bare) ["build"] installed
              (builder [cudaarithm] (options_of (mri_of ["build"])))
              (ambient_of installed) (ambient_of installed) (ambient_of installed)
              lib_directory [cudaarithm] eq_refl eq_refl eq_refl Hready eq_refl Hnone)
    as (evs & Hrun & _).
  by rewrite Hrun.
Defined.

Lemma configuration_values_witness :
  (configure (node := posix) (options_of (mri_of ["build"])) installed).1
  = Ok ("OPENCV4NODEJS_FOUND_LIBRARY_CORE;OPENCV4NODEJS_FOUND_LIBRARY_IMGPROC",
        "/opt/opencv-build/include;/opt/opencv-build/include/opencv4",
        "-L/opt/opencv-build/lib;-lopencv_core;-lopencv_imgproc;-Wl,-rpath,/opt/opencv-build/lib").
Proof.
  assert (Hready : directory_ready
                     (builder [core; cudaarithm; imgproc] (options_of (mri_of ["build"])))
                     lib_directory (ambient_of installed) (ambient_of installed)).
  { left. split; [|reflexivity]. eexists. reflexivity. }
  assert (Hsome : filter (fun lib => found lib) [core; cudaarithm; imgproc] ≠ []).
  { vm_compute. discriminate. }
  destruct (configuration_values (node := posix) ["build"] installed
              (builder [core; cudaarithm; imgproc] (options_of (mri_of ["build"])))
              (ambient_of installed) (ambient_of installed) (ambient_of installed)
              lib_directory [core; cudaarithm; imgproc]
              ["/opt/opencv-build/include"; "/opt/opencv-build/include/opencv4"]
              eq_refl eq_refl Hready eq_refl Hsome eq_refl)
    as (evs & Hrun & _).
  exact (f_equal fst Hrun).
Defined.

Lemma getLibDir_nonempty_witness : lib_directory ≠ "".
Proof.
  apply (getLibDir_nonempty (node := posix)
           (env (builder [core] (options_of (mri_of ["build"])))) installed).
  reflexivity.
Defined.

Lemma includes_nonempty_witness :
  (length ["/usr/local/include"; "/usr/local/include/opencv4"] = 1
   ∨ length ["/usr/local/include"; "/usr/local/include/opencv4"] = 2)
  ∧ Forall (fun inc => inc ≠ "") ["/usr/local/include"; "/usr/local/include/opencv4"].
Proof.
  apply (includes_nonempty (node := posix)
           (env (builder [core] (options_of (mri_of ["build"; "--nobuild"])))) [core]
           installed); reflexivity.
Defined.


Lemma dry_run_shows_command_witness :
  ∃ cmd,
    started (trace (launch (node := posix) (JStr "max") (JBool false) "D" "I" "L" installed).2)
    = [(cmd, "/opt/opencv4nodejs")]
    ∧ console_log [PStr cmd]
      ∈ trace (launch (node := posix) (JStr "max") (JBool true) "D" "I" "L" installed).2.
Proof.
  destruct (dry_run_shows_command (node := posix) (JStr "max") (JBool true) (JBool false)
              "D" "I" "L" installed eq_refl eq_refl) as (_ & _ & _ & Hcmd).
  destruct Hcmd as (cmd & Hstarted & Hin); [vm_compute; reflexivity|].
  exists cmd. split; [exact Hstarted | exact Hin].
Defined.


Lemma defines_have_no_lower_case_witness :
  Forall (fun def => no_lower def = true)
    ["OPENCV4NODEJS_FOUND_LIBRARY_CORE"; "OPENCV4NODEJS_FOUND_LIBRARY_IMGPROC"].
Proof.
  apply (defines_have_no_lower_case (node := posix) [core; imgproc] installed). reflexivity.
Defined.

End Checks.
